(** * salt/states/icinga2.py: the Icinga2 state functions

    A shallow embedding of the five state functions of
    [salt/states/icinga2.py] ([generate_ticket], [generate_cert],
    [save_cert], [request_cert], [node_setup]) together with the
    collaborators they reach through [__salt__], [__opts__] and [os.path].

    The functions are linear check-and-return procedures over three pieces
    of ambient state: the filesystem, the minion's grain store and the
    [icinga2] execution module.  They are modelled in a small state and
    exception monad whose state carries that world plus a log of every
    collaborator call, so that statements such as "the executor is not
    invoked" are statements about the log.

    The execution module and [get_certs_path] live outside this file of the
    repository: the first is a parameter that acts on the files on disk,
    the second a fixed directory name. *)

From Stdlib Require Import ZArith String Ascii List Bool Lia.
From stdpp Require Import base option strings gmap.

Local Open Scope string_scope.
Local Open Scope Z_scope.

(** ** Python values held by grains *)

Set Warnings "-register-all".

(** A grain holds whatever YAML can hold; the state functions meet strings
    (a ticket stored flat), mappings (a grain used with a sub-key) and, in
    grains set by others, scalars such as integers. *)
Inductive pyval : Type :=
| PStr (s : string)
| PInt (z : Z)
| PDict (d : gmap string pyval).

(** Python exceptions the modelled code can raise. *)
Inductive exn : Type :=
| TypeError
| AttributeError.

(** The result of evaluating a Python expression or call. *)
Inductive res (A : Type) : Type :=
| Ok (a : A)
| Raise (e : exn).
Arguments Ok {A} a.
Arguments Raise {A} e.

(** [sub in s] on two strings: substring test. *)
Definition str_contains (sub s : string) : bool :=
  match String.index 0 sub s with
  | Some _ => true
  | None => false
  end.

(** [key in grain_value] (line 87). *)
Definition py_contains (key : string) (grain_value : pyval) : res bool :=
  match grain_value with
  | PDict d => Ok (bool_decide (is_Some (d !! key)))
  | PStr s => Ok (str_contains key s)
  | PInt _ => Raise TypeError
  end.

(** [grain_value[key] = ticket] (line 135); the mutated object is
    returned. *)
Definition py_setitem (grain_value : pyval) (key : string) (v : pyval)
  : res pyval :=
  match grain_value with
  | PDict d => Ok (PDict (<[key := v]> d))
  | PStr _ => Raise TypeError
  | PInt _ => Raise TypeError
  end.

(** Truthiness of an optional string argument ([None] and [""] are
    falsy). *)
Definition truthy (o : option string) : bool :=
  match o with
  | Some s => negb (String.eqb s "")
  | None => false
  end.

(** ["{}".format(o)]. *)
Definition fmt (o : option string) : string :=
  match o with
  | Some s => s
  | None => "None"
  end.

(** An optional string argument used as a string (only ever reached
    where the argument is truthy). *)
Definition arg (o : option string) : string := default "" o.

(** [output == "grain"]. *)
Definition is_grain (output : option string) : bool :=
  match output with
  | Some s => String.eqb s "grain"
  | None => false
  end.

(** ** Collaborators *)

(** The calls into the [icinga2] execution module, one per state
    function. *)
Inductive command : Type :=
| Icinga2GenerateTicket (name : string) (salt : option string)
| Icinga2GenerateCert (name : string)
| Icinga2SaveCert (name parent : string)
| Icinga2RequestCert (name parent ticket port : string)
| Icinga2NodeSetup (name parent ticket : string).

(** What an execution-module call returns: the [cmd.run_all] dictionary,
    of which the state functions read ["stdout"] and ["retcode"]. *)
Record cmd_result : Type := CmdResult {
  stdout : string;
  retcode : Z
}.

(** Every collaborator call, in the order it happens. *)
Inductive event : Type :=
| EvIsFile (path : string)
| EvGrainsLs
| EvGrainsGet (grain : string)
| EvGrainsSetval (grain : string) (v : pyval)
| EvExec (c : command)
| EvFileWrite (path : string) (data : string).

(** The ambient state of one minion: the [__opts__["test"]] flag, the
    regular files on disk with their contents, the grain store, and the
    log of collaborator calls made so far. *)
Record State : Type := mkState {
  opts_test : bool;
  files : gmap string string;
  grains : gmap string pyval;
  log : list event
}.

Definition record (e : event) (st : State) : State :=
  mkState (opts_test st) (files st) (grains st) (log st ++ [e]).

(** The state record every function returns
    ([{"name": ..., "changes": ..., "result": ..., "comment": ...}]);
    ["result"] is [True], [False] or [None]. *)
Record Ret : Type := mkRet {
  name : string;
  changes : gmap string string;
  result : option bool;
  comment : string
}.

Definition set_comment (c : string) (r : Ret) : Ret :=
  mkRet (name r) (changes r) (result r) c.
Definition set_result (b : option bool) (r : Ret) : Ret :=
  mkRet (name r) (changes r) b (comment r).
Definition set_change (k v : string) (r : Ret) : Ret :=
  mkRet (name r) (<[k := v]> (changes r)) (result r) (comment r).

(** ** The monad: state passing with Python exceptions *)

Definition M (A : Type) : Type := State -> res A * State.

Definition pure {A} (a : A) : M A := fun st => (Ok a, st).

Definition bind {A B} (m : M A) (k : A -> M B) : M B :=
  fun st =>
    match m st with
    | (Ok a, st') => k a st'
    | (Raise e, st') => (Raise e, st')
    end.

Definition lift {A} (r : res A) : M A := fun st => (r, st).

Notation "'let*' x ':=' m 'in' k" := (bind m (fun x => k))
  (at level 10, x name, m at level 100, k at level 200).
Notation "'run' m 'then' k" := (bind m (fun _ => k))
  (at level 10, m at level 100, k at level 200).

(** Python's [a and b]: [b] is evaluated only when [a] is true. *)
Definition and_then (a : bool) (b : M bool) : M bool :=
  if a then b else pure false.

(** [__opts__["test"]]. *)
Definition test_mode : M bool := fun st => (Ok (opts_test st), st).

(** The type of the [icinga2] execution module: a call, run on the files
    on disk, answers a [cmd_result] and leaves files behind. *)
Abbreviation executor :=
  (command -> gmap string string -> cmd_result * gmap string string).

Section Icinga2.

(** [salt.utils.icinga2.get_certs_path()]: the directory (with its
    trailing slash) in which icinga2 keeps certificates.  It depends on the
    installed icinga2 version only, so it is fixed throughout. *)
Variable get_certs_path : string.

(** The [icinga2] execution module.  Its functions run the [icinga2]
    command line tool: they may create or change files and they report a
    [cmd_result]; they have no handle on the grain store. *)
Variable icinga2 : executor.

(** [os.path.isfile(path)]. *)
Definition isfile (path : string) : M bool :=
  fun st => (Ok (bool_decide (is_Some (files st !! path))),
             record (EvIsFile path) st).

(** [__salt__["grains.ls"]()]: the names of the grains. *)
Definition grains_ls : M (gset string) :=
  fun st => (Ok (dom (grains st)), record EvGrainsLs st).

(** [__salt__["grains.get"](grain)]; a missing grain reads as [""]. *)
Definition grains_get (grain : string) : M pyval :=
  fun st => (Ok (default (PStr "") (grains st !! grain)),
             record (EvGrainsGet grain) st).

(** [__salt__["grains.setval"](grain, val)]. *)
Definition grains_setval (grain : string) (val : pyval) : M unit :=
  fun st => (Ok tt,
             record (EvGrainsSetval grain val)
               (mkState (opts_test st) (files st)
                  (<[grain := val]> (grains st)) (log st))).

(** [__salt__["icinga2.<function>"](...)]. *)
Definition salt_icinga2 (c : command) : M cmd_result :=
  fun st =>
    let '(r, fs) := icinga2 c (files st) in
    (Ok r, record (EvExec c) (mkState (opts_test st) fs (grains st) (log st))).

(** [salt.utils] inside [generate_ticket] (lines 142 and 143).  The
    function has a parameter called [salt] (line 39), the shared secret,
    which hides the package [salt] imported at lines 25 and 26: the
    attribute is looked up on the value the caller passed.  The shared
    secret is [None] or a [str], and neither has an attribute [utils]. *)
Definition salt_utils (salt : option string) : M unit :=
  fun st => (Raise AttributeError, st).

(** [with salt.utils.files.fopen(path, "w") as f: f.write(data)], once
    [salt.utils.files.fopen] has been looked up; the write is taken to
    succeed. *)
Definition fopen_write (path data : string) : M unit :=
  fun st => (Ok tt,
             record (EvFileWrite path data)
               (mkState (opts_test st) (<[path := data]> (files st))
                  (grains st) (log st))).

(** [generate_cert(name)], lines 150-180. *)
Definition generate_cert (name : string) : M Ret :=
  let ret := mkRet name ∅ (Some true) "" in
  let cert := get_certs_path ++ name ++ ".crt" in
  let key := get_certs_path ++ name ++ ".key" in
  (* Checking if execution is needed. *)
  let* c := isfile cert in
  let* satisfied := and_then c (isfile key) in
  if satisfied then
    pure (set_comment
            ("No execution needed. Cert: " ++ cert ++ " and key: " ++ key
               ++ " already generated.") ret)
  else
  let* test := test_mode in
  if test then
    pure (set_comment "Certificate and key generation would be executed"
            (set_result None ret))
  else
  (* Executing the command. *)
  let* cert_save := salt_icinga2 (Icinga2GenerateCert name) in
  if retcode cert_save =? 0 then
    pure (set_change "key" ("Executed. Key saved: " ++ key)
            (set_change "cert" ("Executed. Certificate saved: " ++ cert)
               (set_comment "Certificate and key generated" ret)))
  else pure ret.

(** [generate_ticket(name, output=None, grain=None, key=None,
    overwrite=True, salt=None)], lines 39-147.  [execute] is the part
    after the checks (lines 120-147), which every branch that does not
    return falls through to.  Storing into a file sets the change (line
    141) and then looks [utils] up on the parameter [salt] (line 142). *)
Definition generate_ticket (name : string) (output grain key : option string)
    (overwrite : bool) (salt : option string) : M Ret :=
  let ret := mkRet name ∅ (Some true) "" in
  let execute : M Ret :=
    (* Executing the command. *)
    let* ticket_res := salt_icinga2 (Icinga2GenerateTicket name salt) in
    let ticket := stdout ticket_res in
    let ret :=
      if retcode ticket_res =? 0 then set_comment ticket ret else ret in
    if is_grain output then
      if truthy grain && negb (truthy key) then
        run grains_setval (arg grain) (PStr ticket) then
        pure (set_change "ticket"
                ("Executed. Output into grain: " ++ fmt grain) ret)
      else if truthy grain then
        let* ls := grains_ls in
        let* grain_value :=
          if bool_decide (arg grain ∈ ls) then grains_get (arg grain)
          else pure (PDict ∅) in
        let* grain_value :=
          lift (py_setitem grain_value (arg key) (PStr ticket)) in
        run grains_setval (arg grain) grain_value then
        pure (set_change "ticket"
                ("Executed. Output into grain: " ++ fmt grain ++ ":"
                   ++ fmt key) ret)
      else pure ret
    else if truthy output then
      let ret :=
        set_change "ticket" ("Executed. Output into " ++ fmt output) ret in
      run salt_utils salt then
      run fopen_write (arg output) ticket then
      pure ret
    else
      pure (set_change "ticket" "Executed" ret) in
  (* Checking if execution is needed. *)
  if is_grain output then
    if truthy grain && negb (truthy key) then
      let* already :=
        and_then (negb overwrite)
          (let* ls := grains_ls in pure (bool_decide (arg grain ∈ ls))) in
      if already then
        pure (set_comment
                ("No execution needed. Grain " ++ fmt grain ++ " already set")
                ret)
      else
      let* test := test_mode in
      if test then
        pure (set_comment
                ("Ticket generation would be executed, storing result in grain: "
                   ++ fmt grain)
                (set_result None ret))
      else execute
    else if truthy grain then
      let* ls := grains_ls in
      let* grain_value :=
        if bool_decide (arg grain ∈ ls) then grains_get (arg grain)
        else pure (PDict ∅) in
      let* already :=
        and_then (negb overwrite) (lift (py_contains (arg key) grain_value)) in
      if already then
        pure (set_comment
                ("No execution needed. Grain " ++ fmt grain ++ ":" ++ fmt key
                   ++ " already set")
                ret)
      else
      let* test := test_mode in
      if test then
        pure (set_comment
                ("Ticket generation would be executed, storing result in grain: "
                   ++ fmt grain ++ ":" ++ fmt key)
                (set_result None ret))
      else execute
    else
      pure (set_comment
              ("Error: output type 'grain' needs the grain parameter"
                 ++ String "010"%char "")
              (set_result (Some false) ret))
  else if truthy output then
    let* already := and_then (negb overwrite) (isfile (arg output)) in
    if already then
      pure (set_comment
              ("No execution needed. File " ++ fmt output ++ " already set")
              ret)
    else
    let* test := test_mode in
    if test then
      pure (set_comment
              ("Ticket generation would be executed, storing result in file: "
                 ++ fmt output)
              (set_result None ret))
    else execute
  else
    let* test := test_mode in
    if test then
      pure (set_comment
              "Ticket generation would be executed, not storing result"
              (set_result None ret))
    else execute.

(** [save_cert(name, parent)], lines 183-210. *)
Definition save_cert (name parent : string) : M Ret :=
  let ret := mkRet name ∅ (Some true) "" in
  let cert := get_certs_path ++ "trusted-parent.crt" in
  (* Checking if execution is needed. *)
  let* already := isfile cert in
  if already then
    pure (set_comment
            ("No execution needed. Cert: " ++ cert ++ " already saved.") ret)
  else
  let* test := test_mode in
  if test then
    pure (set_comment "Certificate save for icinga2 parent would be executed"
            (set_result None ret))
  else
  (* Executing the command. *)
  let* cert_save := salt_icinga2 (Icinga2SaveCert name parent) in
  if retcode cert_save =? 0 then
    pure (set_change "cert" ("Executed. Certificate saved: " ++ cert)
            (set_comment "Certificate for icinga2 parent saved" ret))
  else pure ret.

(** [request_cert(name, parent, ticket, port="5665")], lines 213-252. *)
Definition request_cert (name parent ticket port : string) : M Ret :=
  let ret := mkRet name ∅ (Some true) "" in
  let cert := get_certs_path ++ "ca.crt" in
  (* Checking if execution is needed. *)
  let* already := isfile cert in
  if already then
    pure (set_comment
            ("No execution needed. Cert: " ++ cert ++ " already exists.") ret)
  else
  let* test := test_mode in
  if test then
    pure (set_comment
            "Certificate request from icinga2 parent would be executed"
            (set_result None ret))
  else
  (* Executing the command. *)
  let* cert_request :=
    salt_icinga2 (Icinga2RequestCert name parent ticket port) in
  if retcode cert_request =? 0 then
    pure (set_change "cert" ("Executed. Certificate requested: " ++ cert)
            (set_comment "Certificate request from icinga2 parent executed"
               ret))
  else
    pure (set_result (Some false)
            (set_comment
               ("FAILED. Certificate requested failed with output: "
                  ++ stdout cert_request) ret)).

(** [node_setup(name, parent, ticket)], lines 255-292.  The existence
    check reads [cert] twice; [key] is computed and never used. *)
Definition node_setup (name parent ticket : string) : M Ret :=
  let ret := mkRet name ∅ (Some true) "" in
  let cert := get_certs_path ++ name ++ ".crt.orig" in
  let key := get_certs_path ++ name ++ ".key.orig" in
  (* Checking if execution is needed. *)
  let* c := isfile cert in
  let* already := and_then c (isfile cert) in
  if already then
    pure (set_comment "No execution needed. Node already configured." ret)
  else
  let* test := test_mode in
  if test then
    pure (set_comment "Node setup will be executed." (set_result None ret))
  else
  (* Executing the command. *)
  let* node_setup := salt_icinga2 (Icinga2NodeSetup name parent ticket) in
  if retcode node_setup =? 0 then
    pure (set_change "cert" "Node setup finished successfully."
            (set_comment "Node setup executed." ret))
  else
    pure (set_result (Some false)
            (set_comment
               ("FAILED. Node setup failed with outpu: " ++ stdout node_setup)
               ret)).

(** ** The five state functions as one entry point *)

(** A state declaration of an SLS file: the function and its arguments. *)
Inductive action : Type :=
| GenerateTicket (name : string) (output grain key : option string)
    (overwrite : bool) (salt : option string)
| GenerateCert (name : string)
| SaveCert (name parent : string)
| RequestCert (name parent ticket port : string)
| NodeSetup (name parent ticket : string).

(** Applying a state declaration calls the function it names. *)
Definition apply_state (a : action) : M Ret :=
  match a with
  | GenerateTicket name output grain key overwrite salt =>
      generate_ticket name output grain key overwrite salt
  | GenerateCert name => generate_cert name
  | SaveCert name parent => save_cert name parent
  | RequestCert name parent ticket port => request_cert name parent ticket port
  | NodeSetup name parent ticket => node_setup name parent ticket
  end.

(** ** What the checks of the five functions decide *)

(** Whether a path is a regular file, without going through the monad. *)
Definition file_exists (st : State) (path : string) : bool :=
  bool_decide (is_Some (files st !! path)).

(** The end state an action looks for before it runs anything, as its
    check computes it (lines 69, 87, 104, 162, 197, 233 and 273).  A ticket
    stored under a sub-key is found in the mapping the grain holds; a grain
    that holds something else than a mapping has no sub-keys to speak of,
    so the answer is [None] there.  A ticket that is only reported, and a
    call that names no grain, have no end state to find. *)
Definition satisfied (a : action) (st : State) : option bool :=
  match a with
  | GenerateTicket _ output grain key _ _ =>
      if is_grain output then
        if truthy grain && negb (truthy key) then
          Some (bool_decide (arg grain ∈ dom (grains st)))
        else if truthy grain then
          match grains st !! arg grain with
          | None => Some false
          | Some (PDict d) => Some (bool_decide (is_Some (d !! arg key)))
          | Some _ => None
          end
        else Some false
      else if truthy output then Some (file_exists st (arg output))
      else Some false
  | GenerateCert name =>
      Some (file_exists st (get_certs_path ++ name ++ ".crt")
            && file_exists st (get_certs_path ++ name ++ ".key"))
  | SaveCert _ _ =>
      Some (file_exists st (get_certs_path ++ "trusted-parent.crt"))
  | RequestCert _ _ _ _ =>
      Some (file_exists st (get_certs_path ++ "ca.crt"))
  | NodeSetup name _ _ =>
      Some (file_exists st (get_certs_path ++ name ++ ".crt.orig"))
  end.

(** Forced overwrite: an argument of [generate_ticket] only. *)
Definition overwrite_requested (a : action) : bool :=
  match a with
  | GenerateTicket _ _ _ _ overwrite _ => overwrite
  | _ => false
  end.

(** The check returns early: the end state is there and overwrite was not
    requested ([not overwrite and ...] does not look at the end state when
    overwrite is requested). *)
Definition short_circuits (a : action) (st : State) : option bool :=
  if overwrite_requested a then Some false else satisfied a st.

(** What the check of an action answers (lines 69, 87, 104, 162, 197, 233
    and 273): whether it returns "No execution needed".  With overwrite
    requested [not overwrite and ...] answers [False] without looking
    further.  For a sub-key, [key in grain_value] is evaluated on whatever
    the grain holds: a lookup in a mapping, a substring test on a string,
    and a [TypeError] on an integer. *)
Definition check_returns (a : action) (st : State) : res bool :=
  match a with
  | GenerateTicket _ output grain key overwrite _ =>
      if is_grain output then
        if truthy grain && negb (truthy key) then
          Ok (negb overwrite && bool_decide (arg grain ∈ dom (grains st)))
        else if truthy grain then
          if overwrite then Ok false
          else py_contains (arg key)
                 (default (PDict ∅) (grains st !! arg grain))
        else Ok false
      else if truthy output then
        Ok (negb overwrite && file_exists st (arg output))
      else Ok false
  | GenerateCert name =>
      Ok (file_exists st (get_certs_path ++ name ++ ".crt")
          && file_exists st (get_certs_path ++ name ++ ".key"))
  | SaveCert _ _ =>
      Ok (file_exists st (get_certs_path ++ "trusted-parent.crt"))
  | RequestCert _ _ _ _ =>
      Ok (file_exists st (get_certs_path ++ "ca.crt"))
  | NodeSetup name _ _ =>
      Ok (file_exists st (get_certs_path ++ name ++ ".crt.orig"))
  end.

(** The caller asked for output in a grain and named none (lines
    99-102). *)
Definition usage_error (a : action) : bool :=
  match a with
  | GenerateTicket _ output grain _ _ _ => is_grain output && negb (truthy grain)
  | _ => false
  end.

(** The execution-module call an action makes when it executes. *)
Definition command_of (a : action) : command :=
  match a with
  | GenerateTicket name _ _ _ _ salt => Icinga2GenerateTicket name salt
  | GenerateCert name => Icinga2GenerateCert name
  | SaveCert name parent => Icinga2SaveCert name parent
  | RequestCert name parent ticket port =>
      Icinga2RequestCert name parent ticket port
  | NodeSetup name parent ticket => Icinga2NodeSetup name parent ticket
  end.

End Icinga2.

(** Events that change something outside the function: an executor call, a
    grain write, a file write. *)
Definition is_mutation (e : event) : bool :=
  match e with
  | EvExec _ | EvGrainsSetval _ _ | EvFileWrite _ _ => true
  | EvIsFile _ | EvGrainsLs | EvGrainsGet _ => false
  end.

(** A run that leaves the state as it was but for collaborator calls
    [evs] added to the log. *)
Definition extend (st : State) (evs : list event) : State :=
  mkState (opts_test st) (files st) (grains st) (log st ++ evs).

(** A stretch of log without executor call, grain write or file write. *)
Definition read_only (evs : list event) : bool :=
  forallb (fun e => negb (is_mutation e)) evs.

(** What a dry run leaves behind, whatever it returns: the state as it was
    with probes added to the log, and no changes in a record that comes
    back. *)
Definition predicts_only (m : M Ret) (st : State) : Prop :=
  exists evs : list event,
    snd (m st) = extend st evs
    /\ read_only evs = true
    /\ (forall r : Ret, fst (m st) = Ok r -> changes r = ∅).

(** The mapping a grain holds, as lines 131-134 read it: the empty
    mapping when the grain does not exist; nothing when the grain holds
    something that is not a mapping. *)
Definition grain_mapping (st : State) (grain : string)
  : option (gmap string pyval) :=
  match grains st !! grain with
  | None => Some ∅
  | Some (PDict d) => Some d
  | Some _ => None
  end.

(** ** The loader check and further notions about runs *)

(** What [__virtual__] returns: [True], or the pair of [False] and the
    reason. *)
Inductive virtual_result : Type :=
| Loaded
| NotLoaded (reason : string).

(** [__virtual__()], lines 30-36; [salt] is the set of keys of
    [__salt__]. *)
Definition __virtual__ (salt : gset string) : virtual_result :=
  if bool_decide ("icinga2.generate_ticket" ∈ salt) then Loaded
  else NotLoaded "icinga2 module could not be loaded".

(** The [name] argument of a state declaration. *)
Definition name_of (a : action) : string :=
  match a with
  | GenerateTicket name _ _ _ _ _ => name
  | GenerateCert name => name
  | SaveCert name _ => name
  | RequestCert name _ _ _ => name
  | NodeSetup name _ _ => name
  end.

(** The same minion with [__opts__["test"]] set to [b]. *)
Definition with_test (b : bool) (st : State) : State :=
  mkState b (files st) (grains st) (log st).

(** The executor calls in a stretch of log, in order. *)
Definition executor_calls (evs : list event) : list command :=
  flat_map (fun e => match e with EvExec c => [c] | _ => [] end) evs.

(** File probes and executor calls: the events that neither touch the
    grain store nor write a file. *)
Definition probe_or_exec (e : event) : bool :=
  match e with
  | EvIsFile _ | EvExec _ => true
  | EvGrainsLs | EvGrainsGet _ | EvGrainsSetval _ _ | EvFileWrite _ _ => false
  end.

(** A file written by the state function itself. *)
Definition is_file_write (e : event) : bool :=
  match e with
  | EvFileWrite _ _ => true
  | _ => false
  end.

(** Storing into a file: an output that is given and is not ["grain"]. *)
Definition to_file (a : action) : bool :=
  match a with
  | GenerateTicket _ output _ _ _ _ => truthy output && negb (is_grain output)
  | _ => false
  end.

(** ** Stub collaborators for concrete runs *)

(** An executor that fails with return code 1 and output ["boom"] and
    touches nothing. *)
Definition boom : executor :=
  fun _ fs => (CmdResult "boom" 1, fs).

(** An executor that succeeds, prints a ticket for [generate_ticket], and
    touches nothing. *)
Definition ok_ticket : executor :=
  fun _ fs => (CmdResult "4f75d2ecd253575fe9180938ebff7cbca262f96e" 0, fs).

(** A minion with no files, no grains and an empty log. *)
Definition fresh (test : bool) : State := mkState test ∅ ∅ [].

Definition pki : string := "/etc/icinga2/pki/".

(** ** Proof support *)

(** Appending to a path is injective in the appended part. *)
Lemma append_inj_r (p a b : string) : p ++ a = p ++ b -> a = b.
Proof.
  induction p as [|c p IH]; simpl; intros H.
  - exact H.
  - injection H as H. auto.
Qed.

(** The certificate and the key that [node_setup] names are different
    files. *)
Lemma orig_cert_is_not_orig_key (certs_path name : string) :
  certs_path ++ name ++ ".crt.orig" <> certs_path ++ name ++ ".key.orig".
Proof.
  intros H. apply append_inj_r, append_inj_r in H. discriminate H.
Qed.

(** A non-empty string argument is truthy. *)
Lemma non_empty_truthy (s : string) : s <> "" -> truthy (Some s) = true.
Proof.
  intros Hs. simpl. destruct (String.eqb_spec s ""); [contradiction|reflexivity].
Qed.

(** Adding no call to the log leaves the state as it is. *)
Lemma extend_nil (st : State) : extend st [] = st.
Proof. destruct st. unfold extend. cbn. now rewrite app_nil_r. Qed.

(** A read-only stretch of log holds no executor call, no grain write and
    no file write. *)
Lemma read_only_not_mutation (evs : list event) (e : event) :
  read_only evs = true -> is_mutation e = true -> e ∉ evs.
Proof.
  unfold read_only. rewrite forallb_forall.
  intros Hevs He Hin. apply list_elem_of_In, Hevs in Hin.
  rewrite He in Hin. discriminate Hin.
Qed.

(** [grain in __salt__["grains.ls"]()] is a lookup in the store. *)
Lemma in_ls_lookup (st : State) (g : string) :
  bool_decide (g ∈ dom (grains st)) = bool_decide (is_Some (grains st !! g)).
Proof. apply bool_decide_ext, elem_of_dom. Qed.

(** Unfolds the monad and the collaborator calls. *)
Ltac unfold_monad :=
  unfold bind, pure, lift, and_then, isfile, grains_ls, grains_get,
    grains_setval, salt_icinga2, salt_utils, fopen_write, test_mode, record.

(** Closes a goal [(Ok r, st') = (Ok r, extend st evs)] once the run has
    been reduced. *)
Ltac finish_run :=
  unfold extend; cbn; rewrite <- ?app_assoc; cbn; reflexivity.

(** Splits on the condition of an [if] whose condition holds no further
    [if]. *)
Ltac split_if :=
  match goal with
  | |- context [if ?b then _ else _] =>
      lazymatch b with
      | context [if _ then _ else _] => fail
      | _ => destruct b eqn:?
      end
  end.

(** Splits on the outcome of [key in grain_value]. *)
Ltac split_contains :=
  match goal with
  | |- context [py_contains ?k ?v] =>
      destruct (py_contains k v) as [[|]|] eqn:?
  end.

(** Closes a goal that says a run only added probes to the log and
    returned no changes. *)
Ltac close_frame :=
  first
    [ exists []; split; [rewrite extend_nil; reflexivity|]
    | eexists; split;
      [ unfold extend; f_equal;
        first [ symmetry; assumption
              | rewrite <- ?app_assoc; reflexivity ] |] ];
  (split;
   [ reflexivity
   | let r := fresh "r" in
     let Hr := fresh "Hr" in
     intros r Hr;
     first [discriminate Hr | injection Hr as <-; reflexivity] ]).

(** ** The checks, function by function *)

Section Checks.

Variable certs_path : string.
Variable icinga2 : executor.

Lemma generate_cert_already (name : string) (st : State) :
  file_exists st (certs_path ++ name ++ ".crt") = true ->
  file_exists st (certs_path ++ name ++ ".key") = true ->
  generate_cert certs_path icinga2 name st
  = (Ok (mkRet name ∅ (Some true)
           ("No execution needed. Cert: " ++ (certs_path ++ name ++ ".crt")
              ++ " and key: " ++ (certs_path ++ name ++ ".key")
              ++ " already generated.")),
     extend st [EvIsFile (certs_path ++ name ++ ".crt");
                EvIsFile (certs_path ++ name ++ ".key")]).
Proof.
  unfold file_exists. intros Hcert Hkey.
  unfold generate_cert. unfold_monad. cbn.
  rewrite Hcert. cbn. rewrite Hkey. cbn. finish_run.
Qed.

Lemma save_cert_already (name parent : string) (st : State) :
  file_exists st (certs_path ++ "trusted-parent.crt") = true ->
  save_cert certs_path icinga2 name parent st
  = (Ok (mkRet name ∅ (Some true)
           ("No execution needed. Cert: "
              ++ (certs_path ++ "trusted-parent.crt") ++ " already saved.")),
     extend st [EvIsFile (certs_path ++ "trusted-parent.crt")]).
Proof.
  unfold file_exists. intros Hcert.
  unfold save_cert. unfold_monad. cbn. rewrite Hcert. cbn. finish_run.
Qed.

Lemma request_cert_already (name parent ticket port : string) (st : State) :
  file_exists st (certs_path ++ "ca.crt") = true ->
  request_cert certs_path icinga2 name parent ticket port st
  = (Ok (mkRet name ∅ (Some true)
           ("No execution needed. Cert: " ++ (certs_path ++ "ca.crt")
              ++ " already exists.")),
     extend st [EvIsFile (certs_path ++ "ca.crt")]).
Proof.
  unfold file_exists. intros Hcert.
  unfold request_cert. unfold_monad. cbn. rewrite Hcert. cbn. finish_run.
Qed.

Lemma node_setup_already (name parent ticket : string) (st : State) :
  file_exists st (certs_path ++ name ++ ".crt.orig") = true ->
  node_setup certs_path icinga2 name parent ticket st
  = (Ok (mkRet name ∅ (Some true)
           "No execution needed. Node already configured."),
     extend st [EvIsFile (certs_path ++ name ++ ".crt.orig");
                EvIsFile (certs_path ++ name ++ ".crt.orig")]).
Proof.
  unfold file_exists. intros Hcert.
  unfold node_setup. unfold_monad. cbn.
  rewrite Hcert. cbn. rewrite Hcert. cbn. finish_run.
Qed.

(** The early return of [generate_ticket]: with overwrite off and the
    ticket already stored where it is asked to go, the untouched record
    comes back with a comment that starts "No execution needed." and only
    probes have been made. *)
Lemma generate_ticket_already (name : string) (output grain key : option string)
    (salt : option string) (st : State) :
  satisfied certs_path (GenerateTicket name output grain key false salt) st
  = Some true ->
  exists (msg : string) (evs : list event),
    generate_ticket icinga2 name output grain key false salt st
    = (Ok (mkRet name ∅ (Some true) msg), extend st evs)
    /\ String.prefix "No execution needed." msg = true
    /\ read_only evs = true.
Proof.
  intros Hsat. simpl in Hsat. unfold generate_ticket.
  destruct (is_grain output).
  - destruct (truthy grain) eqn:Hgrain; [|discriminate Hsat].
    destruct (truthy key) eqn:Hkey; cbn [andb negb] in Hsat |- *.
    + destruct (grains st !! arg grain) as [[s|z|d]|] eqn:Hg;
        try discriminate Hsat.
      injection Hsat as Hsat.
      unfold_monad. cbn.
      rewrite bool_decide_eq_true_2 by (apply elem_of_dom; eauto).
      cbn. rewrite Hg. cbn. rewrite Hsat. cbn.
      eexists _, _. split; [finish_run|]. split; reflexivity.
    + injection Hsat as Hsat.
      unfold_monad. cbn. rewrite Hsat. cbn.
      eexists _, _. split; [finish_run|]. split; reflexivity.
  - destruct (truthy output); [|discriminate Hsat].
    injection Hsat as Hsat. unfold file_exists in Hsat.
    unfold_monad. cbn. rewrite Hsat. cbn.
    eexists _, _. split; [finish_run|]. split; reflexivity.
Qed.

End Checks.

(** All five functions at once: the end state is there and overwrite is
    not forced, so the check returns. *)
Lemma apply_state_already (certs_path : string) (icinga2 : executor)
    (a : action) (st : State) :
  satisfied certs_path a st = Some true ->
  overwrite_requested a = false ->
  exists (r : Ret) (evs : list event),
    apply_state certs_path icinga2 a st = (Ok r, extend st evs)
    /\ result r = Some true
    /\ changes r = ∅
    /\ String.prefix "No execution needed." (comment r) = true
    /\ read_only evs = true.
Proof.
  intros Hsat Hover.
  destruct a as [name output grain key overwrite salt | name | name parent
                | name parent ticket port | name parent ticket];
    simpl in Hover; cbn [apply_state].
  - subst overwrite.
    destruct (generate_ticket_already certs_path icinga2 _ _ _ _ _ _ Hsat)
      as (msg & evs & Hrun & Hmsg & Hevs).
    exists (mkRet name ∅ (Some true) msg), evs.
    repeat split; assumption.
  - simpl in Hsat. injection Hsat as Hsat.
    apply andb_true_iff in Hsat as [Hcert Hkey].
    rewrite (generate_cert_already certs_path icinga2 name st Hcert Hkey).
    eexists _, _. repeat split.
  - simpl in Hsat. injection Hsat as Hsat.
    rewrite (save_cert_already certs_path icinga2 name parent st Hsat).
    eexists _, _. repeat split.
  - simpl in Hsat. injection Hsat as Hsat.
    rewrite (request_cert_already certs_path icinga2 _ _ _ _ st Hsat).
    eexists _, _. repeat split.
  - simpl in Hsat. injection Hsat as Hsat.
    rewrite (node_setup_already certs_path icinga2 _ _ _ st Hsat).
    eexists _, _. repeat split.
Qed.

(** ** Dry runs, function by function *)

Section DryRun.

Variable certs_path : string.
Variable icinga2 : executor.

Lemma generate_ticket_predicts_only (name : string)
    (output grain key : option string) (overwrite : bool)
    (salt : option string) (st : State) :
  opts_test st = true ->
  predicts_only (generate_ticket icinga2 name output grain key overwrite salt)
    st.
Proof.
  intros Htest. unfold predicts_only, generate_ticket.
  destruct (is_grain output); [destruct (truthy grain), (truthy key)|
                               destruct (truthy output)];
    destruct overwrite; unfold_monad; cbn; rewrite ?Htest; cbn.
  all: repeat (first [split_if | split_contains]; cbn; rewrite ?Htest; cbn).
  all: close_frame.
Qed.

Lemma generate_cert_predicts_only (name : string) (st : State) :
  opts_test st = true ->
  predicts_only (generate_cert certs_path icinga2 name) st.
Proof.
  intros Htest. unfold predicts_only, generate_cert. unfold_monad. cbn.
  repeat (split_if; cbn; rewrite ?Htest; cbn).
  all: close_frame.
Qed.

Lemma save_cert_predicts_only (name parent : string) (st : State) :
  opts_test st = true ->
  predicts_only (save_cert certs_path icinga2 name parent) st.
Proof.
  intros Htest. unfold predicts_only, save_cert. unfold_monad. cbn.
  repeat (split_if; cbn; rewrite ?Htest; cbn).
  all: close_frame.
Qed.

Lemma request_cert_predicts_only (name parent ticket port : string)
    (st : State) :
  opts_test st = true ->
  predicts_only (request_cert certs_path icinga2 name parent ticket port) st.
Proof.
  intros Htest. unfold predicts_only, request_cert. unfold_monad. cbn.
  repeat (split_if; cbn; rewrite ?Htest; cbn).
  all: close_frame.
Qed.

Lemma node_setup_predicts_only (name parent ticket : string) (st : State) :
  opts_test st = true ->
  predicts_only (node_setup certs_path icinga2 name parent ticket) st.
Proof.
  intros Htest. unfold predicts_only, node_setup. unfold_monad. cbn.
  repeat (split_if; cbn; rewrite ?Htest; cbn).
  all: close_frame.
Qed.

(** The record of a dry run that gets past the check. *)
Lemma generate_ticket_would_change (name : string)
    (output grain key : option string) (overwrite : bool)
    (salt : option string) (st : State) :
  opts_test st = true ->
  check_returns certs_path
    (GenerateTicket name output grain key overwrite salt) st = Ok false ->
  usage_error (GenerateTicket name output grain key overwrite salt) = false ->
  exists msg : string,
    fst (generate_ticket icinga2 name output grain key overwrite salt st)
    = Ok (mkRet name ∅ None msg).
Proof.
  intros Htest Hsc Husage.
  cbn in Hsc, Husage. unfold generate_ticket.
  destruct (is_grain output); [destruct (truthy grain), (truthy key)|
                               destruct (truthy output)];
    try discriminate Husage;
    destruct overwrite; cbn in Hsc; unfold_monad; cbn;
    rewrite ?in_ls_lookup, ?Htest; rewrite ?in_ls_lookup in Hsc; cbn.
  all: try (eexists; reflexivity).
  all: try (destruct (grains st !! arg grain) as [v|] eqn:Hg;
            cbn in Hsc |- *).
  all: try (injection Hsc as Hsc; unfold file_exists in Hsc).
  all: try discriminate Hsc.
  all: repeat (cbn; rewrite ?Htest, ?Hsc, ?Hg).
  all: eexists; reflexivity.
Qed.

(** A dry run whose check raises, raises: no record comes back. *)
Lemma generate_ticket_check_raises (name : string)
    (output grain key : option string) (overwrite : bool)
    (salt : option string) (st : State) (e : exn) :
  check_returns certs_path
    (GenerateTicket name output grain key overwrite salt) st = Raise e ->
  fst (generate_ticket icinga2 name output grain key overwrite salt st)
  = Raise e.
Proof.
  intros Hsc. cbn in Hsc. unfold generate_ticket.
  destruct (is_grain output); [destruct (truthy grain), (truthy key)|
                               destruct (truthy output)];
    destruct overwrite; cbn in Hsc; try discriminate Hsc;
    unfold_monad; cbn; rewrite ?in_ls_lookup.
  destruct (grains st !! arg grain) as [v|] eqn:Hg; cbn in Hsc |- *;
    [|discriminate Hsc].
  rewrite Hg. cbn. rewrite Hsc. reflexivity.
Qed.

Lemma cert_action_would_change (a : action) (st : State) :
  match a with
  | GenerateTicket _ _ _ _ _ _ => False
  | _ => True
  end ->
  opts_test st = true ->
  satisfied certs_path a st = Some false ->
  exists (name msg : string),
    fst (apply_state certs_path icinga2 a st) = Ok (mkRet name ∅ None msg).
Proof.
  intros Ha Htest Hsat.
  destruct a as [| name | name parent | name parent ticket port
                | name parent ticket]; [contradiction | | | |];
    cbn in Hsat; injection Hsat as Hsat; unfold file_exists in Hsat;
    unfold apply_state, generate_cert, save_cert, request_cert, node_setup;
    unfold_monad; cbn.
  - apply andb_false_iff in Hsat as [Hsat | Hsat].
    + repeat (cbn; rewrite ?Htest, ?Hsat). eexists _, _. reflexivity.
    + split_if; repeat (cbn; rewrite ?Htest, ?Hsat); eexists _, _;
        reflexivity.
  - repeat (cbn; rewrite ?Htest, ?Hsat). eexists _, _. reflexivity.
  - repeat (cbn; rewrite ?Htest, ?Hsat). eexists _, _. reflexivity.
  - repeat (cbn; rewrite ?Htest, ?Hsat). eexists _, _. reflexivity.
Qed.

End DryRun.

(** ** Executor failures *)

(** C1, at a failing executor: [generate_cert], [save_cert] and
    [generate_ticket] called for real with an executor that answers return
    code 1 and output ["boom"] each invoke the executor and then return
    result [True] with a comment that does not contain the output; the
    first two report no change, [generate_ticket] reports the ticket as
    executed. *)
Lemma nonzero_retcode_reported_as_success :
  generate_cert pki boom "node1" (fresh false)
  = (Ok (mkRet "node1" ∅ (Some true) ""),
     mkState false ∅ ∅
       [EvIsFile "/etc/icinga2/pki/node1.crt";
        EvExec (Icinga2GenerateCert "node1")])
  /\ save_cert pki boom "node1" "master" (fresh false)
     = (Ok (mkRet "node1" ∅ (Some true) ""),
        mkState false ∅ ∅
          [EvIsFile "/etc/icinga2/pki/trusted-parent.crt";
           EvExec (Icinga2SaveCert "node1" "master")])
  /\ generate_ticket boom "node1" None None None true None (fresh false)
     = (Ok (mkRet "node1" {["ticket" := "Executed"]} (Some true) ""),
        mkState false ∅ ∅ [EvExec (Icinga2GenerateTicket "node1" None)]).
Proof.
  repeat split; vm_compute; reflexivity.
Qed.

(** The two functions that do have a failure branch: a non-zero return
    code gives result [False] and a comment that ends in the executor's
    output. *)
Lemma request_cert_reports_failure (certs_path : string) (icinga2 : executor)
    (name parent ticket port : string) (st : State) :
  file_exists st (certs_path ++ "ca.crt") = false ->
  opts_test st = false ->
  retcode (fst (icinga2 (Icinga2RequestCert name parent ticket port)
                  (files st))) <> 0 ->
  exists st',
    request_cert certs_path icinga2 name parent ticket port st
    = (Ok (mkRet name ∅ (Some false)
             ("FAILED. Certificate requested failed with output: "
                ++ stdout (fst (icinga2
                                  (Icinga2RequestCert name parent ticket port)
                                  (files st))))),
       st').
Proof.
  intros Hcert Htest Hret.
  unfold request_cert. unfold_monad. unfold file_exists in Hcert.
  rewrite Hcert. cbn. rewrite Htest. cbn.
  destruct (icinga2 _ (files st)) as [res fs]. simpl in Hret |- *.
  apply Z.eqb_neq in Hret. rewrite Hret. eexists. reflexivity.
Qed.

Lemma node_setup_reports_failure (certs_path : string) (icinga2 : executor)
    (name parent ticket : string) (st : State) :
  file_exists st (certs_path ++ name ++ ".crt.orig") = false ->
  opts_test st = false ->
  retcode (fst (icinga2 (Icinga2NodeSetup name parent ticket) (files st)))
  <> 0 ->
  exists st',
    node_setup certs_path icinga2 name parent ticket st
    = (Ok (mkRet name ∅ (Some false)
             ("FAILED. Node setup failed with outpu: "
                ++ stdout (fst (icinga2 (Icinga2NodeSetup name parent ticket)
                                  (files st))))),
       st').
Proof.
  intros Hcert Htest Hret.
  unfold node_setup. unfold_monad. unfold file_exists in Hcert.
  rewrite Hcert. cbn. rewrite Htest. cbn.
  destruct (icinga2 _ (files st)) as [res fs]. simpl in Hret |- *.
  apply Z.eqb_neq in Hret. rewrite Hret. eexists. reflexivity.
Qed.

(** C8: [request_cert] run for real while the CA certificate is missing,
    with an executor that answers return code 1 and output ["boom"],
    returns the failure record and its comment contains ["boom"]. *)
Theorem request_cert_reports_boom (certs_path : string) (icinga2 : executor)
    (name parent ticket port : string) (st : State) :
  file_exists st (certs_path ++ "ca.crt") = false ->
  opts_test st = false ->
  fst (icinga2 (Icinga2RequestCert name parent ticket port) (files st))
  = CmdResult "boom" 1 ->
  exists r st',
    request_cert certs_path icinga2 name parent ticket port st = (Ok r, st')
    /\ result r = Some false
    /\ comment r = "FAILED. Certificate requested failed with output: boom"
    /\ str_contains "boom" (comment r) = true.
Proof.
  intros Hcert Htest Hexec.
  unfold request_cert. unfold_monad. unfold file_exists in Hcert.
  rewrite Hcert. cbn. rewrite Htest. cbn.
  destruct (icinga2 _ (files st)) as [res fs]. simpl in Hexec. subst res.
  cbn. eexists _, _. repeat split; reflexivity.
Qed.

Lemma request_cert_reports_boom_witness :
  exists r st',
    request_cert pki boom "node1" "master" "t1ck3t" "5665" (fresh false)
    = (Ok r, st')
    /\ result r = Some false
    /\ comment r = "FAILED. Certificate requested failed with output: boom"
    /\ str_contains "boom" (comment r) = true.
Proof.
  apply (request_cert_reports_boom pki boom "node1" "master" "t1ck3t" "5665"
           (fresh false)); reflexivity.
Defined.

(** C10: [generate_cert] and [save_cert] that reach execution and get a
    non-zero return code from the executor return the record they started
    from: result [True], no changes, empty comment. *)
Theorem cert_actions_swallow_failure (certs_path : string) (icinga2 : executor)
    (a : action) (st : State) :
  match a with
  | GenerateCert _ | SaveCert _ _ => True
  | _ => False
  end ->
  satisfied certs_path a st = Some false ->
  opts_test st = false ->
  retcode (fst (icinga2 (command_of a) (files st))) <> 0 ->
  exists r st',
    apply_state certs_path icinga2 a st = (Ok r, st')
    /\ result r = Some true
    /\ changes r = ∅
    /\ comment r = "".
Proof.
  intros Ha Hsat Htest Hret.
  destruct a as [| name | name parent | |]; try contradiction; clear Ha;
    simpl in Hsat, Hret; injection Hsat as Hsat;
    unfold apply_state, generate_cert, save_cert; unfold_monad;
    unfold file_exists in Hsat.
  - destruct (bool_decide (is_Some (files st !! (certs_path ++ name ++ ".crt"))));
      simpl in Hsat; cbn; [rewrite Hsat; cbn|]; rewrite Htest; cbn;
      destruct (icinga2 _ (files st)) as [res fs]; simpl in Hret;
      apply Z.eqb_neq in Hret; cbn; rewrite Hret;
      eexists _, _; repeat split; reflexivity.
  - rewrite Hsat. cbn. rewrite Htest. cbn.
    destruct (icinga2 _ (files st)) as [res fs]; simpl in Hret.
    apply Z.eqb_neq in Hret. cbn. rewrite Hret.
    eexists _, _. repeat split; reflexivity.
Qed.

Lemma cert_actions_swallow_failure_witness :
  exists r st',
    apply_state pki boom (GenerateCert "node1") (fresh false) = (Ok r, st')
    /\ result r = Some true
    /\ changes r = ∅
    /\ comment r = "".
Proof.
  apply (cert_actions_swallow_failure pki boom (GenerateCert "node1")
           (fresh false)).
  - exact I.
  - reflexivity.
  - reflexivity.
  - vm_compute. discriminate.
Defined.

(** ** Dry run *)

(** C2: with [__opts__["test"]] set, an action only probes: the state is
    as before but for probes added to the log (no executor call, no grain
    write, no file write), and a record that comes back has no changes.
    When the check answers that the end state is not there and the call is
    not a usage error, a record does come back, with result [None].  When
    the check itself raises, the run raises the same and no record comes
    back. *)
Theorem dry_run_only_predicts (certs_path : string) (icinga2 : executor)
    (a : action) (st : State) :
  opts_test st = true ->
  (exists evs : list event,
      snd (apply_state certs_path icinga2 a st) = extend st evs
      /\ read_only evs = true
      /\ (forall r : Ret,
             fst (apply_state certs_path icinga2 a st) = Ok r ->
             changes r = ∅))
  /\ (check_returns certs_path a st = Ok false ->
      usage_error a = false ->
      exists r : Ret,
        fst (apply_state certs_path icinga2 a st) = Ok r
        /\ result r = None
        /\ changes r = ∅)
  /\ (forall e : exn,
         check_returns certs_path a st = Raise e ->
         fst (apply_state certs_path icinga2 a st) = Raise e).
Proof.
  intros Htest. split; [|split].
  - destruct a; cbn [apply_state].
    + now apply generate_ticket_predicts_only.
    + now apply generate_cert_predicts_only.
    + now apply save_cert_predicts_only.
    + now apply request_cert_predicts_only.
    + now apply node_setup_predicts_only.
  - intros Hsc Husage.
    destruct a as [name output grain key overwrite salt | | | |].
    1: { destruct (generate_ticket_would_change certs_path icinga2 name output
                     grain key overwrite salt st Htest Hsc Husage)
           as [msg Hrun].
         exists (mkRet name ∅ None msg). cbn [apply_state].
         now rewrite Hrun. }
    all: match goal with
         | |- context [apply_state _ _ ?a _] =>
             assert (Hsat : satisfied certs_path a st = Some false)
               by (cbn in Hsc |- *; congruence);
             destruct (cert_action_would_change certs_path icinga2 a st I
                         Htest Hsat) as (name & msg & Hrun)
         end;
      exists (mkRet name ∅ None msg); now rewrite Hrun.
  - intros e Hsc.
    destruct a as [name output grain key overwrite salt | | | |];
      try discriminate Hsc.
    cbn [apply_state]. now apply generate_ticket_check_raises with certs_path.
Qed.

Lemma dry_run_only_predicts_witness :
  (exists evs : list event,
      snd (apply_state pki ok_ticket
             (GenerateTicket "node1" (Some "grain") (Some "roles")
                (Some "ticket") false None)
             (mkState true ∅ {["roles" := PStr "webserver"]} []))
      = extend (mkState true ∅ {["roles" := PStr "webserver"]} []) evs
      /\ read_only evs = true
      /\ (forall r : Ret,
             fst (apply_state pki ok_ticket
                    (GenerateTicket "node1" (Some "grain") (Some "roles")
                       (Some "ticket") false None)
                    (mkState true ∅ {["roles" := PStr "webserver"]} []))
             = Ok r ->
             changes r = ∅))
  /\ exists r : Ret,
      fst (apply_state pki ok_ticket
             (GenerateTicket "node1" (Some "grain") (Some "roles")
                (Some "ticket") false None)
             (mkState true ∅ {["roles" := PStr "webserver"]} []))
      = Ok r
      /\ result r = None
      /\ changes r = ∅.
Proof.
  destruct (dry_run_only_predicts pki ok_ticket
              (GenerateTicket "node1" (Some "grain") (Some "roles")
                 (Some "ticket") false None)
              (mkState true ∅ {["roles" := PStr "webserver"]} []) eq_refl)
    as (Hframe & Hrecord & _).
  split; [exact Hframe|].
  apply Hrecord; vm_compute; reflexivity.
Defined.

(** C2 as the spec states it promises a would-change record to every dry
    run that is neither short-circuited nor a usage error.  Here the test
    flag is on, the call is no usage error and nothing short-circuits (no
    "No execution needed" record comes back), yet no record comes back at
    all: the grain holds an integer, and the check's [key in grain_value]
    (line 87) raises before the test flag is read (line 92). *)
Lemma dry_run_check_raises_on_int_grain :
  opts_test (mkState true ∅ {["num_cpus" := PInt 4]} []) = true
  /\ usage_error
       (GenerateTicket "node1" (Some "grain") (Some "num_cpus")
          (Some "ticket") false None) = false
  /\ apply_state pki ok_ticket
       (GenerateTicket "node1" (Some "grain") (Some "num_cpus")
          (Some "ticket") false None)
       (mkState true ∅ {["num_cpus" := PInt 4]} [])
     = (Raise TypeError,
        mkState true ∅ {["num_cpus" := PInt 4]}
          [EvGrainsLs; EvGrainsGet "num_cpus"])
  /\ ~ (exists r : Ret,
          fst (apply_state pki ok_ticket
                 (GenerateTicket "node1" (Some "grain") (Some "num_cpus")
                    (Some "ticket") false None)
                 (mkState true ∅ {["num_cpus" := PInt 4]} []))
          = Ok r).
Proof.
  split; [reflexivity|]. split; [reflexivity|].
  split; [vm_compute; reflexivity|].
  intros [r Hr]. vm_compute in Hr. discriminate Hr.
Qed.

(** ** Short-circuit on a satisfied end state *)

(** C3: an action whose end state is already there, called without forced
    overwrite, returns result [True], no changes and a comment that starts
    "No execution needed."; files and grains are as before and the calls
    made are probes only, so the executor has not been invoked. *)
Theorem satisfied_returns_without_executing (certs_path : string)
    (icinga2 : executor) (a : action) (st : State) :
  satisfied certs_path a st = Some true ->
  overwrite_requested a = false ->
  exists (r : Ret) (evs : list event),
    apply_state certs_path icinga2 a st = (Ok r, extend st evs)
    /\ result r = Some true
    /\ changes r = ∅
    /\ String.prefix "No execution needed." (comment r) = true
    /\ read_only evs = true
    /\ EvExec (command_of a) ∉ evs.
Proof.
  intros Hsat Hover.
  destruct (apply_state_already certs_path icinga2 a st Hsat Hover)
    as (r & evs & Hrun & Hres & Hch & Hmsg & Hevs).
  exists r, evs. repeat split; try assumption.
  now apply read_only_not_mutation.
Qed.

Lemma satisfied_returns_without_executing_witness :
  exists (r : Ret) (evs : list event),
    apply_state pki ok_ticket
      (GenerateTicket "node1" (Some "grain") (Some "icinga2") (Some "ticket")
         false None)
      (mkState false ∅ {["icinga2" := PDict {["ticket" := PStr "old"]}]} [])
    = (Ok r,
       extend
         (mkState false ∅ {["icinga2" := PDict {["ticket" := PStr "old"]}]} [])
         evs)
    /\ result r = Some true
    /\ changes r = ∅
    /\ String.prefix "No execution needed." (comment r) = true
    /\ read_only evs = true
    /\ EvExec (command_of
                 (GenerateTicket "node1" (Some "grain") (Some "icinga2")
                    (Some "ticket") false None)) ∉ evs.
Proof.
  apply (satisfied_returns_without_executing pki ok_ticket
           (GenerateTicket "node1" (Some "grain") (Some "icinga2")
              (Some "ticket") false None)
           (mkState false ∅ {["icinga2" := PDict {["ticket" := PStr "old"]}]}
              [])).
  - vm_compute. reflexivity.
  - reflexivity.
Defined.

(** ** The usage error of [generate_ticket] *)

(** C4: [generate_ticket] asked to store into a grain without a grain name
    returns the failure record at once, whatever the dry-run flag, the
    overwrite flag and the other arguments are: the state, log of
    collaborator calls included, is returned as it came in, so no file
    probe, no grain access and no executor call has happened. *)
Theorem generate_ticket_grain_needs_grain_name (icinga2 : executor)
    (name : string) (grain key : option string) (overwrite : bool)
    (salt : option string) (st : State) :
  truthy grain = false ->
  generate_ticket icinga2 name (Some "grain") grain key overwrite salt st
  = (Ok (mkRet name ∅ (Some false)
           ("Error: output type 'grain' needs the grain parameter"
              ++ String "010"%char "")),
     st).
Proof.
  intros Hgrain. unfold generate_ticket. simpl is_grain. cbv iota.
  rewrite Hgrain. reflexivity.
Qed.

Lemma generate_ticket_grain_needs_grain_name_witness :
  generate_ticket ok_ticket "node1" (Some "grain") None (Some "k") false
    None (fresh true)
  = (Ok (mkRet "node1" ∅ (Some false)
           ("Error: output type 'grain' needs the grain parameter"
              ++ String "010"%char "")),
     fresh true).
Proof.
  apply (generate_ticket_grain_needs_grain_name ok_ticket "node1" None
           (Some "k") false None (fresh true)).
  reflexivity.
Defined.

(** ** Storing the ticket under a sub-key *)

(** C5: [generate_ticket] with output ["grain"], a grain name and a
    sub-key, run for real past the check (overwrite forced, or the sub-key
    not yet in the mapping): afterwards the grain holds a mapping in which
    the sub-key is bound to the ticket the executor printed and every other
    key is bound as in the mapping the grain held before (the empty mapping
    if the grain did not exist); the other grains are untouched. *)
Theorem generate_ticket_merges_into_grain (icinga2 : executor)
    (name grain key : string) (overwrite : bool) (salt : option string)
    (st : State) (d : gmap string pyval) :
  grain <> "" ->
  key <> "" ->
  opts_test st = false ->
  grain_mapping st grain = Some d ->
  overwrite = true \/ d !! key = None ->
  let ticket :=
    stdout (fst (icinga2 (Icinga2GenerateTicket name salt) (files st))) in
  exists (r : Ret) (st' : State),
    generate_ticket icinga2 name (Some "grain") (Some grain) (Some key)
      overwrite salt st = (Ok r, st')
    /\ grains st' !! grain = Some (PDict (<[key := PStr ticket]> d))
    /\ (<[key := PStr ticket]> d) !! key = Some (PStr ticket)
    /\ (forall k : string,
           k <> key -> (<[key := PStr ticket]> d) !! k = d !! k)
    /\ (forall g : string, g <> grain -> grains st' !! g = grains st !! g).
Proof.
  intros Hgrain Hkey Htest Hmap Hreach ticket. subst ticket.
  unfold generate_ticket. cbn [is_grain String.eqb Ascii.eqb Bool.eqb].
  rewrite (non_empty_truthy grain Hgrain), (non_empty_truthy key Hkey).
  cbn [andb negb arg default fmt]. unfold_monad. cbn.
  rewrite !in_ls_lookup. unfold grain_mapping in Hmap.
  destruct (icinga2 (Icinga2GenerateTicket name salt) (files st))
    as [res fs] eqn:Hexec.
  destruct (grains st !! grain) as [[s|z|d0]|] eqn:Hg;
    try discriminate Hmap; injection Hmap as <-.
  all: destruct overwrite;
    [|destruct Hreach as [Hover|Hd]; [discriminate Hover|]].
  all: repeat (cbn; rewrite ?Htest, ?Hg, ?Hexec, ?Hd, ?in_ls_lookup).
  all: eexists _, _; split; [reflexivity|]; cbn.
  all: repeat split;
    [ apply lookup_insert_eq
    | apply lookup_insert_eq
    | intros k Hk; now apply lookup_insert_ne
    | intros g Hg'; now apply lookup_insert_ne ].
Qed.

Lemma generate_ticket_merges_into_grain_witness :
  let ticket := "4f75d2ecd253575fe9180938ebff7cbca262f96e" in
  exists (r : Ret) (st' : State),
    generate_ticket ok_ticket "node1" (Some "grain") (Some "icinga2")
      (Some "b") true None
      (mkState false ∅ {["icinga2" := PDict {["a" := PInt 1]}]} [])
    = (Ok r, st')
    /\ grains st' !! "icinga2"
       = Some (PDict (<["b" := PStr ticket]> {["a" := PInt 1]}))
    /\ (<["b" := PStr ticket]> {["a" := PInt 1]} : gmap string pyval) !! "b"
       = Some (PStr ticket)
    /\ (forall k : string,
           k <> "b" ->
           (<["b" := PStr ticket]> {["a" := PInt 1]} : gmap string pyval) !! k
           = ({["a" := PInt 1]} : gmap string pyval) !! k)
    /\ (forall g : string,
           g <> "icinga2" ->
           grains st' !! g
           = grains
               (mkState false ∅ {["icinga2" := PDict {["a" := PInt 1]}]} [])
             !! g).
Proof.
  apply (generate_ticket_merges_into_grain ok_ticket "node1" "icinga2" "b"
           true None
           (mkState false ∅ {["icinga2" := PDict {["a" := PInt 1]}]} [])
           {["a" := PInt 1]}).
  - discriminate.
  - discriminate.
  - reflexivity.
  - vm_compute. reflexivity.
  - left. reflexivity.
Defined.

(** The stored value of the example of C5, computed: from [{"a": 1}] and
    sub-key ["b"] the grain ends up as [{"a": 1, "b": <ticket>}]. *)
Lemma nested_grain_merge_example :
  grains
    (snd (generate_ticket ok_ticket "node1" (Some "grain") (Some "icinga2")
            (Some "b") true None
            (mkState false ∅ {["icinga2" := PDict {["a" := PInt 1]}]} [])))
  !! "icinga2"
  = Some (PDict {["a" := PInt 1;
                  "b" := PStr "4f75d2ecd253575fe9180938ebff7cbca262f96e"]}).
Proof. vm_compute. reflexivity. Qed.

(** ** Idempotence *)

(** C6: an action applied a second time, overwrite not forced, in the
    state its first application left, where that state holds the action's
    end state, returns no changes (and result [True]); the second
    application makes probes only. *)
Theorem second_application_changes_nothing (certs_path : string)
    (icinga2 : executor) (a : action) (st : State) :
  overwrite_requested a = false ->
  satisfied certs_path a (snd (apply_state certs_path icinga2 a st))
  = Some true ->
  exists (r2 : Ret) (evs : list event),
    apply_state certs_path icinga2 a
      (snd (apply_state certs_path icinga2 a st))
    = (Ok r2, extend (snd (apply_state certs_path icinga2 a st)) evs)
    /\ changes r2 = ∅
    /\ result r2 = Some true
    /\ read_only evs = true.
Proof.
  intros Hover Hsat.
  destruct (apply_state_already certs_path icinga2 a _ Hsat Hover)
    as (r & evs & Hrun & Hres & Hch & Hmsg & Hevs).
  exists r, evs. repeat split; assumption.
Qed.

Lemma second_application_changes_nothing_witness :
  fst (apply_state pki ok_ticket
         (GenerateTicket "node1" (Some "grain") (Some "icinga2_ticket") None
            false None)
         (fresh false))
  = Ok (mkRet "node1"
          {["ticket" := "Executed. Output into grain: icinga2_ticket"]}
          (Some true) "4f75d2ecd253575fe9180938ebff7cbca262f96e")
  /\ exists (r2 : Ret) (evs : list event),
      apply_state pki ok_ticket
        (GenerateTicket "node1" (Some "grain") (Some "icinga2_ticket") None
           false None)
        (snd (apply_state pki ok_ticket
                (GenerateTicket "node1" (Some "grain") (Some "icinga2_ticket")
                   None false None)
                (fresh false)))
      = (Ok r2,
         extend
           (snd (apply_state pki ok_ticket
                   (GenerateTicket "node1" (Some "grain")
                      (Some "icinga2_ticket") None false None)
                   (fresh false)))
           evs)
      /\ changes r2 = ∅
      /\ result r2 = Some true
      /\ read_only evs = true.
Proof.
  split; [vm_compute; reflexivity|].
  apply (second_application_changes_nothing pki ok_ticket
           (GenerateTicket "node1" (Some "grain") (Some "icinga2_ticket") None
              false None)
           (fresh false)).
  - reflexivity.
  - vm_compute. reflexivity.
Defined.

(** [generate_ticket] that was asked to store the ticket and reports a
    change (it has stored the ticket into a grain: a run that gets to store
    into a file raises) leaves its own end state behind, whatever the
    executor did: the premise of C6 holds for it. *)
Lemma generate_ticket_establishes (certs_path : string) (icinga2 : executor)
    (name : string) (output grain key : option string) (overwrite : bool)
    (salt : option string) (st : State) (r : Ret) :
  truthy output = true ->
  fst (generate_ticket icinga2 name output grain key overwrite salt st)
  = Ok r ->
  changes r <> ∅ ->
  satisfied certs_path (GenerateTicket name output grain key overwrite salt)
    (snd (generate_ticket icinga2 name output grain key overwrite salt st))
  = Some true.
Proof.
  intros Hout Hrun Hch. revert Hrun. cbn [satisfied]. unfold generate_ticket.
  destruct (icinga2 (Icinga2GenerateTicket name salt) (files st))
    as [res fs] eqn:Hexec.
  rewrite Hout.
  destruct (is_grain output); [destruct (truthy grain), (truthy key)|];
    destruct overwrite, (opts_test st) eqn:Htest; unfold_monad; cbn;
    rewrite ?in_ls_lookup.
  all: try (destruct (grains st !! arg grain) as [[s|z|d]|] eqn:Hg).
  all: repeat (cbn; rewrite ?Htest, ?Hg, ?Hexec, ?in_ls_lookup).
  all: try (intros [= <-]; cbn in Hch; congruence).
  all: try discriminate.
  all: repeat (split_if; repeat (cbn; rewrite ?Htest, ?Hg, ?Hexec, ?in_ls_lookup)).
  all: try (intros [= <-]; cbn in Hch; congruence).
  all: try discriminate.
  all: intros _; unfold file_exists; cbn;
    rewrite ?lookup_insert_eq, ?dom_insert_L; cbn.
  all: reflexivity.
Qed.

(** ** Forced overwrite *)

(** C7, at an output file that is there: [generate_ticket] with
    overwrite forced, run for real, invokes the executor and then raises
    [AttributeError] at line 142, with the shared secret [None] and with a
    shared secret given; no record comes back, so no change is reported,
    and the file is as it was. *)
Lemma overwrite_to_file_raises_after_executing :
  generate_ticket ok_ticket "node1" (Some "/tmp/ticket") None None true None
    (mkState false {["/tmp/ticket" := "old"]} ∅ [])
  = (Raise AttributeError,
     mkState false {["/tmp/ticket" := "old"]} ∅
       [EvExec (Icinga2GenerateTicket "node1" None)])
  /\ generate_ticket ok_ticket "node1" (Some "/tmp/ticket") None None true
       (Some "SHARED_SECRET")
       (mkState false {["/tmp/ticket" := "old"]} ∅ [])
     = (Raise AttributeError,
        mkState false {["/tmp/ticket" := "old"]} ∅
          [EvExec (Icinga2GenerateTicket "node1" (Some "SHARED_SECRET"))]).
Proof.
  split; vm_compute; reflexivity.
Qed.

(** Where the ticket goes into a grain the overwrite does what is asked:
    with overwrite forced, run for real while the grain is set (or the
    sub-key is in the grain's mapping), the executor is run on the files,
    the grain is written and the record that comes back reports the
    change. *)
Lemma overwrite_into_grain_runs_executor (certs_path : string)
    (icinga2 : executor) (name : string) (output grain key salt : option string)
    (st : State) :
  opts_test st = false ->
  is_grain output = true ->
  satisfied certs_path (GenerateTicket name output grain key true salt) st
  = Some true ->
  exists (r : Ret) (st' : State) (evs : list event),
    generate_ticket icinga2 name output grain key true salt st = (Ok r, st')
    /\ log st' = (log st ++ evs)%list
    /\ executor_calls evs = [Icinga2GenerateTicket name salt]
    /\ files st' = snd (icinga2 (Icinga2GenerateTicket name salt) (files st))
    /\ (exists v : pyval, grains st' = <[arg grain := v]> (grains st))
    /\ is_Some (changes r !! "ticket").
Proof.
  intros Htest Hig Hsat. cbn in Hsat. unfold generate_ticket.
  destruct (icinga2 (Icinga2GenerateTicket name salt) (files st))
    as [res fs] eqn:Hexec.
  rewrite Hig in Hsat |- *.
  destruct (truthy grain), (truthy key);
    try discriminate Hsat; cbn in Hsat; unfold_monad; cbn;
    rewrite ?in_ls_lookup.
  1: destruct (grains st !! arg grain) as [[s|z|d]|] eqn:Hg;
       try discriminate Hsat.
  all: repeat (cbn; rewrite ?Htest, ?Hg, ?Hexec, ?in_ls_lookup).
  all: eexists _, _, _; split; [reflexivity|]; cbn.
  all: split; [rewrite <- ?app_assoc; reflexivity|].
  all: split; [reflexivity|].
  all: split; [reflexivity|].
  all: split; [eexists; reflexivity|].
  all: rewrite lookup_insert_eq; eauto.
Qed.

(** ** [node_setup] and the key file *)

(** C9: on two states whose files differ at most at [<name>.key.orig],
    with the same dry-run flag and an executor that answers the same on
    both, [node_setup] returns the same record, and its check finds the
    same end state: only [<name>.crt.orig] is looked at. *)
Theorem node_setup_ignores_key_file (certs_path : string) (icinga2 : executor)
    (name parent ticket : string) (st1 st2 : State) :
  (forall p : string,
      p <> certs_path ++ name ++ ".key.orig" ->
      files st1 !! p = files st2 !! p) ->
  opts_test st1 = opts_test st2 ->
  fst (icinga2 (Icinga2NodeSetup name parent ticket) (files st1))
  = fst (icinga2 (Icinga2NodeSetup name parent ticket) (files st2)) ->
  fst (node_setup certs_path icinga2 name parent ticket st1)
  = fst (node_setup certs_path icinga2 name parent ticket st2)
  /\ satisfied certs_path (NodeSetup name parent ticket) st1
     = satisfied certs_path (NodeSetup name parent ticket) st2.
Proof.
  intros Hfiles Htest Hexec.
  pose proof (Hfiles _ (orig_cert_is_not_orig_key certs_path name)) as Hcert.
  split; [|simpl; unfold file_exists; now rewrite Hcert].
  unfold node_setup. unfold_monad. cbn. rewrite Hcert.
  destruct (bool_decide (is_Some (files st2 !! _))) eqn:E; cbn.
  - rewrite Hcert, E. cbn.
    reflexivity.
  - rewrite Htest. destruct (opts_test st2); cbn; [reflexivity|].
    destruct (icinga2 _ (files st1)) as [r1 f1].
    destruct (icinga2 _ (files st2)) as [r2 f2].
    simpl in Hexec. subst r2. cbn.
    destruct (retcode r1 =? 0); reflexivity.
Qed.

Lemma node_setup_ignores_key_file_witness :
  fst (node_setup pki boom "node1" "master" "t1ck3t"
         (mkState false {["/etc/icinga2/pki/node1.crt.orig" := "CERT"]} ∅ []))
  = fst (node_setup pki boom "node1" "master" "t1ck3t"
           (mkState false
              (<["/etc/icinga2/pki/node1.key.orig" := "KEY"]>
                 {["/etc/icinga2/pki/node1.crt.orig" := "CERT"]}) ∅ []))
  /\ satisfied pki (NodeSetup "node1" "master" "t1ck3t")
       (mkState false {["/etc/icinga2/pki/node1.crt.orig" := "CERT"]} ∅ [])
     = satisfied pki (NodeSetup "node1" "master" "t1ck3t")
         (mkState false
            (<["/etc/icinga2/pki/node1.key.orig" := "KEY"]>
               {["/etc/icinga2/pki/node1.crt.orig" := "CERT"]}) ∅ []).
Proof.
  apply (node_setup_ignores_key_file pki boom "node1" "master" "t1ck3t").
  - intros p Hp. cbn [files]. symmetry. apply lookup_insert_ne.
    intros <-. apply Hp. reflexivity.
  - reflexivity.
  - reflexivity.
Defined.

(** ** Grains that hold no mapping *)

(** A sub-key given for a grain that holds an integer: with overwrite off
    the check itself raises ([key in grain_value] on an [int]), in a dry
    run as well; nothing but the two grain reads has happened. *)
Lemma sub_key_of_int_grain_raises :
  generate_ticket ok_ticket "node1" (Some "grain") (Some "num_cpus")
    (Some "ticket") false None (mkState true ∅ {["num_cpus" := PInt 4]} [])
  = (Raise TypeError,
     mkState true ∅ {["num_cpus" := PInt 4]}
       [EvGrainsLs; EvGrainsGet "num_cpus"]).
Proof. vm_compute. reflexivity. Qed.

(** A sub-key given for a grain that holds a string: with overwrite on the
    executor runs and the assignment [grain_value[key] = ticket] raises;
    the grain is left as it was. *)
Lemma sub_key_of_str_grain_raises :
  generate_ticket ok_ticket "node1" (Some "grain") (Some "roles")
    (Some "web") true None (mkState false ∅ {["roles" := PStr "webserver"]} [])
  = (Raise TypeError,
     mkState false ∅ {["roles" := PStr "webserver"]}
       [EvGrainsLs; EvGrainsGet "roles";
        EvExec (Icinga2GenerateTicket "node1" None);
        EvGrainsLs; EvGrainsGet "roles"]).
Proof. vm_compute. reflexivity. Qed.

(** * Further properties of the state functions *)

(** ** Proof support for whole runs *)

(** Membership in the names of a map is a lookup. *)
Lemma in_dom_lookup (m : gmap string pyval) (g : string) :
  bool_decide (g ∈ dom m) = bool_decide (is_Some (m !! g)).
Proof. apply bool_decide_ext, elem_of_dom. Qed.

(** Uses the equations gathered so far on the conditions of the run. *)
Ltac use_eqs :=
  repeat match goal with
    | H : bool_decide ?P = _ |- context [bool_decide ?P] => rewrite H
    | H : opts_test ?s = _ |- context [opts_test ?s] => rewrite H
    | H : ?m !! ?k = _ |- context [?m !! ?k] => rewrite H
    | H : (?a =? ?b) = _ |- context [?a =? ?b] => rewrite H
    | H : py_contains ?k ?v = _ |- context [py_contains ?k ?v] => rewrite H
    | H : ?f ?c ?fs = (_, _) |- context [?f ?c ?fs] => rewrite H
    end.

(** Splits on what the executor answers. *)
Ltac split_exec icinga2 :=
  match goal with
  | |- context [icinga2 ?c ?fs] =>
      let res := fresh "res" in
      let fs' := fresh "fs" in
      let E := fresh "Hexec" in
      destruct (icinga2 c fs) as [res fs'] eqn:E
  end.

(** Splits on what a grain holds. *)
Ltac split_grain :=
  match goal with
  | |- context [grains ?st !! ?g] =>
      is_var st;
      let E := fresh "Hgrain" in
      destruct (grains st !! g) as [[?|?|?]|] eqn:E
  end.

(** Splits on the truth of the optional arguments. *)
Ltac split_args :=
  repeat match goal with
    | |- context [is_grain ?o] =>
        is_var o; let E := fresh "Hisgrain" in destruct (is_grain o) eqn:E
    | |- context [truthy ?o] =>
        is_var o; let E := fresh "Htruthy" in destruct (truthy o) eqn:E
    end.

(** Runs a state function symbolically, splitting on every condition it
    tests. *)
Ltac run_cases icinga2 :=
  unfold apply_state, generate_ticket, generate_cert, save_cert,
    request_cert, node_setup;
  cbn [usage_error command_of name_of overwrite_requested];
  split_args;
  unfold_monad; cbn;
  repeat (rewrite ?in_dom_lookup; use_eqs; cbn;
          first [split_exec icinga2 | split_grain | split_if]; cbn);
  rewrite ?in_dom_lookup; use_eqs; cbn.

(** Names the calls a run added to the log. *)
Ltac close_log :=
  first
    [ exists []; split; [symmetry; apply app_nil_r|]
    | eexists; split; [rewrite <- ?app_assoc; reflexivity|] ].

(** ** One executor call at most *)

(** X1: Whatever it is asked and whatever it finds, a state function calls the
    executor at most once, with the call that belongs to it, and leaves the
    dry-run flag as it was: there are no retries. *)
Lemma at_most_one_executor_call (certs_path : string) (icinga2 : executor)
    (a : action) (st : State) :
  exists evs : list event,
    log (snd (apply_state certs_path icinga2 a st)) = (log st ++ evs)%list
    /\ (executor_calls evs = [] \/ executor_calls evs = [command_of a])
    /\ opts_test (snd (apply_state certs_path icinga2 a st)) = opts_test st.
Proof.
  destruct a as [name output grain key overwrite salt | name | name parent
                | name parent ticket port | name parent ticket].
  all: run_cases icinga2.
  all: close_log; cbn; auto.
Qed.

(** ** What a returned record says about the run *)

(** X2: The record that comes back carries the [name] it was called with. *)
Lemma record_keeps_name (certs_path : string) (icinga2 : executor)
    (a : action) (st : State) (r : Ret) :
  fst (apply_state certs_path icinga2 a st) = Ok r ->
  name r = name_of a.
Proof.
  destruct a as [name output grain key overwrite salt | name | name parent
                | name parent ticket port | name parent ticket].
  all: run_cases icinga2.
  all: first [discriminate | intros [= <-]; reflexivity].
Qed.

Lemma record_keeps_name_witness :
  name (mkRet "node1" ∅ (Some true) "") = name_of (GenerateCert "node1").
Proof.
  apply (record_keeps_name pki boom (GenerateCert "node1") (fresh false)).
  vm_compute. reflexivity.
Defined.

(** X3: A record that reports a change comes from a real run (dry run off) in
    which the executor was called, once, and it has result [True]. *)
Lemma changes_come_from_the_executor (certs_path : string)
    (icinga2 : executor) (a : action) (st : State) (r : Ret) :
  fst (apply_state certs_path icinga2 a st) = Ok r ->
  changes r <> ∅ ->
  opts_test st = false
  /\ result r = Some true
  /\ exists evs : list event,
      log (snd (apply_state certs_path icinga2 a st)) = (log st ++ evs)%list
      /\ executor_calls evs = [command_of a].
Proof.
  destruct a as [name output grain key overwrite salt | name | name parent
                | name parent ticket port | name parent ticket].
  all: run_cases icinga2.
  all: first [discriminate | intros [= <-]; cbn; intros Hch].
  all: try (contradiction Hch; reflexivity).
  all: repeat split; try reflexivity; close_log; reflexivity.
Qed.

Lemma changes_come_from_the_executor_witness :
  opts_test (fresh false) = false
  /\ result (mkRet "node1" {["ticket" := "Executed"]} (Some true)
              "4f75d2ecd253575fe9180938ebff7cbca262f96e") = Some true
  /\ exists evs : list event,
      log (snd (apply_state pki ok_ticket
                  (GenerateTicket "node1" None None None true None)
                  (fresh false)))
      = (log (fresh false) ++ evs)%list
      /\ executor_calls evs
         = [command_of (GenerateTicket "node1" None None None true None)].
Proof.
  apply (changes_come_from_the_executor pki ok_ticket
           (GenerateTicket "node1" None None None true None) (fresh false)).
  - vm_compute. reflexivity.
  - apply insert_non_empty.
Defined.

(** X4: Result [None] is only ever returned in a dry run, and then with no
    changes. *)
Lemma would_change_only_in_dry_run (certs_path : string) (icinga2 : executor)
    (a : action) (st : State) (r : Ret) :
  fst (apply_state certs_path icinga2 a st) = Ok r ->
  result r = None ->
  opts_test st = true /\ changes r = ∅.
Proof.
  destruct a as [name output grain key overwrite salt | name | name parent
                | name parent ticket port | name parent ticket].
  all: run_cases icinga2.
  all: first [discriminate | intros [= <-]; cbn; intros Hres].
  all: first [discriminate Hres | split; reflexivity].
Qed.

Lemma would_change_only_in_dry_run_witness :
  opts_test (fresh true) = true
  /\ changes (mkRet "node1" ∅ None "Node setup will be executed.") = ∅.
Proof.
  apply (would_change_only_in_dry_run pki boom
           (NodeSetup "node1" "master" "t1ck3t") (fresh true)).
  - vm_compute. reflexivity.
  - reflexivity.
Defined.

(** X5: Result [False] has two causes only: [generate_ticket] asked for a
    grain without a grain name, or [request_cert] or [node_setup] run for
    real with an executor that answers a non-zero return code.  Either way
    the record has no changes. *)
Lemma failure_has_two_causes (certs_path : string) (icinga2 : executor)
    (a : action) (st : State) (r : Ret) :
  fst (apply_state certs_path icinga2 a st) = Ok r ->
  result r = Some false ->
  changes r = ∅
  /\ (usage_error a = true
      \/ (opts_test st = false
          /\ retcode (fst (icinga2 (command_of a) (files st))) <> 0
          /\ match a with
             | RequestCert _ _ _ _ | NodeSetup _ _ _ => True
             | _ => False
             end)).
Proof.
  destruct a as [name output grain key overwrite salt | name | name parent
                | name parent ticket port | name parent ticket].
  all: run_cases icinga2.
  all: first [discriminate | intros [= <-]; cbn; intros Hres].
  all: try discriminate Hres.
  all: split; [reflexivity|].
  all: try (left; reflexivity).
  all: right; split; [reflexivity|]; split; [|exact I].
  all: apply Z.eqb_neq; assumption.
Qed.

Lemma failure_has_two_causes_witness :
  changes (mkRet "node1" ∅ (Some false)
             "FAILED. Node setup failed with outpu: boom") = ∅
  /\ (usage_error (NodeSetup "node1" "master" "t1ck3t") = true
      \/ (opts_test (fresh false) = false
          /\ retcode (fst (boom (command_of (NodeSetup "node1" "master"
                                               "t1ck3t"))
                             (files (fresh false)))) <> 0
          /\ True)).
Proof.
  apply (failure_has_two_causes pki boom (NodeSetup "node1" "master" "t1ck3t")
           (fresh false)).
  - vm_compute. reflexivity.
  - reflexivity.
Defined.

(** ** The certificate functions and the grain store *)

(** X6: [generate_cert], [save_cert], [request_cert] and [node_setup] never
    read or write a grain and never write a file themselves: the grains are
    as before, the files are as before or as the executor left them, and
    the calls made are file probes and the executor call. *)
Lemma cert_actions_leave_grains_alone (certs_path : string)
    (icinga2 : executor) (a : action) (st : State) :
  match a with
  | GenerateTicket _ _ _ _ _ _ => False
  | _ => True
  end ->
  grains (snd (apply_state certs_path icinga2 a st)) = grains st
  /\ (files (snd (apply_state certs_path icinga2 a st)) = files st
      \/ files (snd (apply_state certs_path icinga2 a st))
         = snd (icinga2 (command_of a) (files st)))
  /\ exists evs : list event,
      log (snd (apply_state certs_path icinga2 a st)) = (log st ++ evs)%list
      /\ forallb probe_or_exec evs = true.
Proof.
  destruct a as [name output grain key overwrite salt | name | name parent
                | name parent ticket port | name parent ticket];
    [contradiction| | | |]; intros _.
  all: run_cases icinga2.
  all: split; [reflexivity|]; split; [auto|]; close_log; reflexivity.
Qed.

Lemma cert_actions_leave_grains_alone_witness :
  grains (snd (apply_state pki boom (SaveCert "node1" "master")
                 (mkState false ∅ {["roles" := PStr "web"]} [])))
  = grains (mkState false ∅ {["roles" := PStr "web"]} [])
  /\ (files (snd (apply_state pki boom (SaveCert "node1" "master")
                    (mkState false ∅ {["roles" := PStr "web"]} [])))
      = files (mkState false ∅ {["roles" := PStr "web"]} [])
      \/ files (snd (apply_state pki boom (SaveCert "node1" "master")
                       (mkState false ∅ {["roles" := PStr "web"]} [])))
         = snd (boom (command_of (SaveCert "node1" "master"))
                  (files (mkState false ∅ {["roles" := PStr "web"]} []))))
  /\ exists evs : list event,
      log (snd (apply_state pki boom (SaveCert "node1" "master")
                  (mkState false ∅ {["roles" := PStr "web"]} [])))
      = (log (mkState false ∅ {["roles" := PStr "web"]} []) ++ evs)%list
      /\ forallb probe_or_exec evs = true.
Proof.
  apply (cert_actions_leave_grains_alone pki boom (SaveCert "node1" "master")
           (mkState false ∅ {["roles" := PStr "web"]} [])).
  exact I.
Defined.

(** ** Reaching the executor *)

(** X7: A real run that gets past the check calls the executor, once: when
    the check answers that the end state is not there (or does not look,
    overwrite being forced) and the call is not the usage error, the log
    gains exactly one executor call, the one that belongs to the action.
    This holds also where the run then raises. *)
Lemma unsatisfied_action_executes (certs_path : string) (icinga2 : executor)
    (a : action) (st : State) :
  opts_test st = false ->
  check_returns certs_path a st = Ok false ->
  usage_error a = false ->
  exists evs : list event,
    log (snd (apply_state certs_path icinga2 a st)) = (log st ++ evs)%list
    /\ executor_calls evs = [command_of a].
Proof.
  destruct a as [name output grain key overwrite salt | name | name parent
                | name parent ticket port | name parent ticket];
    cbn [check_returns]; unfold file_exists.
  all: run_cases icinga2.
  all: intros Htest Hsc Husage; try discriminate; try congruence.
  all: close_log; reflexivity.
Qed.

Lemma unsatisfied_action_executes_witness :
  exists evs : list event,
    log (snd (apply_state pki boom (RequestCert "node1" "master" "t1ck3t" "5665")
                (fresh false)))
    = (log (fresh false) ++ evs)%list
    /\ executor_calls evs
       = [command_of (RequestCert "node1" "master" "t1ck3t" "5665")].
Proof.
  apply (unsatisfied_action_executes pki boom
           (RequestCert "node1" "master" "t1ck3t" "5665") (fresh false));
    reflexivity.
Defined.

(** ** What a dry run foretells *)

(** X8: The dry run and the real run of the same call on the same minion agree:
    where the dry run answers result [None], the real run calls the
    executor (once); where the dry run answers anything else (no execution
    needed, the usage error) or raises [TypeError], the real run does
    exactly the same.  A dry run never raises [AttributeError]. *)
Lemma dry_run_foretells_real_run (certs_path : string) (icinga2 : executor)
    (a : action) (st : State) :
  match fst (apply_state certs_path icinga2 a (with_test true st)) with
  | Ok r =>
      match result r with
      | None =>
          exists evs : list event,
            log (snd (apply_state certs_path icinga2 a (with_test false st)))
            = (log st ++ evs)%list
            /\ executor_calls evs = [command_of a]
      | Some _ =>
          apply_state certs_path icinga2 a (with_test false st)
          = (Ok r,
             with_test false
               (snd (apply_state certs_path icinga2 a (with_test true st))))
      end
  | Raise e =>
      e = TypeError
      /\ apply_state certs_path icinga2 a (with_test false st)
         = (Raise e,
            with_test false
              (snd (apply_state certs_path icinga2 a (with_test true st))))
  end.
Proof.
  unfold with_test.
  destruct a as [name output grain key overwrite salt | name | name parent
                | name parent ticket port | name parent ticket].
  all: run_cases icinga2.
  all: first [reflexivity | close_log; reflexivity | split; reflexivity].
Qed.

(** ** The outcome of the certificate functions *)

(** X9: A certificate function run for real past its check hands the files to
    the executor and reports by the return code: on 0 result [True] with
    a ["cert"] change, otherwise no changes. *)
Lemma cert_action_reports_by_return_code (certs_path : string)
    (icinga2 : executor) (a : action) (st : State) :
  match a with
  | GenerateTicket _ _ _ _ _ _ => False
  | _ => True
  end ->
  opts_test st = false ->
  satisfied certs_path a st = Some false ->
  exists r : Ret,
    fst (apply_state certs_path icinga2 a st) = Ok r
    /\ files (snd (apply_state certs_path icinga2 a st))
       = snd (icinga2 (command_of a) (files st))
    /\ if retcode (fst (icinga2 (command_of a) (files st))) =? 0
       then result r = Some true /\ is_Some (changes r !! "cert")
       else changes r = ∅.
Proof.
  destruct a as [name output grain key overwrite salt | name | name parent
                | name parent ticket port | name parent ticket];
    [contradiction| | | |]; intros _;
    cbn [satisfied]; unfold file_exists.
  all: run_cases icinga2.
  all: intros Htest Hsat; try discriminate; try congruence.
  all: eexists; split; [reflexivity|]; split; [reflexivity|]; cbn.
  all: first [ reflexivity
             | split; [reflexivity|];
               rewrite ?lookup_insert_ne by discriminate;
               rewrite lookup_insert_eq; eauto ].
Qed.

Lemma cert_action_reports_by_return_code_witness :
  exists r : Ret,
    fst (apply_state pki ok_ticket (GenerateCert "node1") (fresh false)) = Ok r
    /\ files (snd (apply_state pki ok_ticket (GenerateCert "node1")
                     (fresh false)))
       = snd (ok_ticket (command_of (GenerateCert "node1"))
                (files (fresh false)))
    /\ if retcode (fst (ok_ticket (command_of (GenerateCert "node1"))
                          (files (fresh false)))) =? 0
       then result r = Some true /\ is_Some (changes r !! "cert")
       else changes r = ∅.
Proof.
  apply (cert_action_reports_by_return_code pki ok_ticket
           (GenerateCert "node1") (fresh false)).
  - exact I.
  - reflexivity.
  - reflexivity.
Defined.

(** ** Where [generate_ticket] puts the ticket *)

(** [output == "grain"] is a non-empty output. *)
Lemma is_grain_truthy (output : option string) :
  is_grain output = true -> truthy output = true.
Proof.
  destruct output as [s|]; [|discriminate]. cbn.
  intros H. apply String.eqb_eq in H. subst s. reflexivity.
Qed.

(** X10: No output asked for: a real run makes the executor call and nothing
    else (no probe, no write); it reports the change ["Executed"] and puts
    the ticket in the comment when the return code is 0, and leaves the
    comment empty otherwise. *)
Lemma generate_ticket_reports_inline (icinga2 : executor) (name : string)
    (output grain key : option string) (overwrite : bool)
    (salt : option string) (st : State) :
  truthy output = false ->
  opts_test st = false ->
  let res := fst (icinga2 (Icinga2GenerateTicket name salt) (files st)) in
  generate_ticket icinga2 name output grain key overwrite salt st
  = (Ok (mkRet name {["ticket" := "Executed"]} (Some true)
           (if retcode res =? 0 then stdout res else "")),
     mkState false
       (snd (icinga2 (Icinga2GenerateTicket name salt) (files st)))
       (grains st)
       (log st ++ [EvExec (Icinga2GenerateTicket name salt)])).
Proof.
  intros Hout Htest.
  pose proof (is_grain_truthy output) as Hig. revert Hout Htest Hig.
  run_cases icinga2.
  all: intros Hout Htest Hig; try discriminate;
    try (specialize (Hig eq_refl); discriminate).
  all: reflexivity.
Qed.

Lemma generate_ticket_reports_inline_witness :
  generate_ticket ok_ticket "node1" None (Some "ignored") None false None
    (fresh false)
  = (Ok (mkRet "node1" {["ticket" := "Executed"]} (Some true)
           "4f75d2ecd253575fe9180938ebff7cbca262f96e"),
     mkState false ∅ ∅ [EvExec (Icinga2GenerateTicket "node1" None)]).
Proof.
  apply (generate_ticket_reports_inline ok_ticket "node1" None
           (Some "ignored") None false None (fresh false));
    reflexivity.
Defined.

(** X11: Output to a file: a real run past the check calls the executor and
    then raises [AttributeError] at line 142, whatever the shared secret
    and whatever the executor answers.  No record comes back and the ticket
    is written nowhere: the files are as the executor left them, the grains
    as before, and the calls made are the probe of the check (overwrite
    off) and the executor call. *)
Lemma generate_ticket_to_file_raises (icinga2 : executor) (name : string)
    (output grain key : option string) (overwrite : bool)
    (salt : option string) (st : State) :
  truthy output = true ->
  is_grain output = false ->
  opts_test st = false ->
  overwrite = true \/ files st !! arg output = None ->
  generate_ticket icinga2 name output grain key overwrite salt st
  = (Raise AttributeError,
     mkState false
       (snd (icinga2 (Icinga2GenerateTicket name salt) (files st)))
       (grains st)
       (log st ++ (if overwrite then [] else [EvIsFile (arg output)])
          ++ [EvExec (Icinga2GenerateTicket name salt)])).
Proof.
  intros Hout Hig Htest Hreach.
  assert (Hb : overwrite = true
               \/ bool_decide (is_Some (files st !! arg output)) = false).
  { destruct Hreach as [Hover|Hnone]; [now left|right].
    rewrite Hnone. apply bool_decide_eq_false_2. now intros [x Hx]. }
  clear Hreach. revert Hout Hig Htest Hb.
  destruct output as [path|]; [|discriminate]. cbn [arg default fmt].
  destruct overwrite; cbn [negb].
  all: run_cases icinga2.
  all: intros Hout Hig Htest Hb; try discriminate.
  all: try (destruct Hb as [Hb|Hb]; discriminate Hb).
  all: rewrite <- ?app_assoc; reflexivity.
Qed.

Lemma generate_ticket_to_file_raises_witness :
  generate_ticket ok_ticket "node1" (Some "/tmp/query_id.txt") None
    None true (Some "SHARED_SECRET") (fresh false)
  = (Raise AttributeError,
     mkState false
       (snd (ok_ticket (Icinga2GenerateTicket "node1" (Some "SHARED_SECRET"))
               (files (fresh false))))
       (grains (fresh false))
       (log (fresh false) ++ (if true then [] else [EvIsFile "/tmp/query_id.txt"])
          ++ [EvExec (Icinga2GenerateTicket "node1" (Some "SHARED_SECRET"))])).
Proof.
  apply (generate_ticket_to_file_raises ok_ticket "node1"
           (Some "/tmp/query_id.txt") None None true (Some "SHARED_SECRET")
           (fresh false)).
  - reflexivity.
  - reflexivity.
  - reflexivity.
  - left. reflexivity.
Defined.

(** X12: Output to a grain without sub-key: a real run past the check binds the
    grain to what the executor printed, as a string, whatever the return
    code and whatever the grain held before; the other grains are as
    before and the files are as the executor left them. *)
Lemma generate_ticket_sets_grain (icinga2 : executor) (name : string)
    (grain key : option string) (overwrite : bool) (salt : option string)
    (st : State) :
  truthy grain = true ->
  truthy key = false ->
  opts_test st = false ->
  overwrite = true \/ grains st !! arg grain = None ->
  let res := fst (icinga2 (Icinga2GenerateTicket name salt) (files st)) in
  exists st' : State,
    generate_ticket icinga2 name (Some "grain") grain key overwrite salt st
    = (Ok (mkRet name
             {["ticket" := "Executed. Output into grain: " ++ arg grain]}
             (Some true) (if retcode res =? 0 then stdout res else "")),
       st')
    /\ grains st' = <[arg grain := PStr (stdout res)]> (grains st)
    /\ files st'
       = snd (icinga2 (Icinga2GenerateTicket name salt) (files st)).
Proof.
  intros Hgr Hkey Htest Hreach.
  assert (Hb : overwrite = true
               \/ bool_decide (is_Some (grains st !! arg grain)) = false).
  { destruct Hreach as [Hover|Hnone]; [now left|right].
    rewrite Hnone. apply bool_decide_eq_false_2. now intros [x Hx]. }
  clear Hreach. revert Hgr Hkey Htest Hb.
  destruct grain as [g|]; [|discriminate]. cbn.
  destruct overwrite; cbn [negb].
  all: run_cases icinga2.
  all: intros Hgr Hkey Htest Hb; try discriminate.
  all: try (destruct Hb as [Hb|Hb]; discriminate Hb).
  all: eexists; repeat split.
Qed.

Lemma generate_ticket_sets_grain_witness :
  exists st' : State,
    generate_ticket ok_ticket "node1" (Some "grain") (Some "ticket") None true
      None (mkState false ∅ {["ticket" := PInt 7]} [])
    = (Ok (mkRet "node1"
             {["ticket" := "Executed. Output into grain: " ++ "ticket"]}
             (Some true) "4f75d2ecd253575fe9180938ebff7cbca262f96e"),
       st')
    /\ grains st'
       = <["ticket" := PStr "4f75d2ecd253575fe9180938ebff7cbca262f96e"]>
           {["ticket" := PInt 7]}
    /\ files st' = ∅.
Proof.
  exact (generate_ticket_sets_grain ok_ticket "node1" (Some "ticket") None
           true None (mkState false ∅ {["ticket" := PInt 7]} [])
           eq_refl eq_refl eq_refl (or_introl eq_refl)).
Defined.

(** X13: A [generate_ticket] that reports a change (the ticket went into a grain
    or nowhere) has the ticket as its comment when the executor's return
    code is 0 and an empty comment otherwise; its result is [True] in both
    cases. *)
Lemma generate_ticket_comment_is_ticket (icinga2 : executor) (name : string)
    (output grain key : option string) (overwrite : bool)
    (salt : option string) (st : State) (r : Ret) :
  fst (generate_ticket icinga2 name output grain key overwrite salt st)
  = Ok r ->
  changes r <> ∅ ->
  let res := fst (icinga2 (Icinga2GenerateTicket name salt) (files st)) in
  result r = Some true
  /\ comment r = (if retcode res =? 0 then stdout res else "").
Proof.
  run_cases icinga2.
  all: first [discriminate | intros [= <-]; cbn; intros Hch].
  all: try (contradiction Hch; reflexivity).
  all: split; reflexivity.
Qed.

Lemma generate_ticket_comment_is_ticket_witness :
  result (mkRet "node1" {["ticket" := "Executed"]} (Some true) "") = Some true
  /\ comment (mkRet "node1" {["ticket" := "Executed"]} (Some true) "")
     = (if retcode (fst (boom (Icinga2GenerateTicket "node1" None)
                           (files (fresh false)))) =? 0
        then stdout (fst (boom (Icinga2GenerateTicket "node1" None)
                            (files (fresh false))))
        else "").
Proof.
  apply (generate_ticket_comment_is_ticket boom "node1" None None None true
           None (fresh false)).
  - vm_compute. reflexivity.
  - apply insert_non_empty.
Defined.

(** ** A sub-key on a grain that holds no mapping *)

(** Taking a string off the front of a string. *)
Lemma substring_of_prefix (k post : string) :
  substring 0 (String.length k) (k ++ post) = k.
Proof.
  induction k as [|c k IH].
  - change (substring 0 0 post = ""). destruct post; reflexivity.
  - change (String c (substring 0 (String.length k) (k ++ post))
            = String c k).
    now rewrite IH.
Qed.

(** Taking a string out of the middle of a string. *)
Lemma substring_of_append (pre k post : string) :
  substring (String.length pre) (String.length k) (pre ++ k ++ post) = k.
Proof.
  induction pre as [|c pre IH].
  - exact (substring_of_prefix k post).
  - exact IH.
Qed.

(** [key in grain_value] on a string finds every occurrence. *)
Lemma str_contains_occurrence (pre k post : string) :
  k <> "" -> str_contains k (pre ++ k ++ post) = true.
Proof.
  intros Hk. unfold str_contains.
  destruct (index 0 k (pre ++ k ++ post)) as [n|] eqn:Hidx; [reflexivity|].
  exfalso.
  apply (index_correct3 0 (String.length pre) k (pre ++ k ++ post) Hidx Hk).
  - apply Nat.le_0_l.
  - apply substring_of_append.
Qed.

(** X14: The grain holds an integer and a sub-key is given, overwrite off: the
    check raises [TypeError] after the two grain reads, before any executor
    call, in a dry run and in a real run alike. *)
Lemma sub_key_on_int_grain_raises (icinga2 : executor)
    (name grain key : string) (salt : option string) (z : Z) (st : State) :
  grain <> "" ->
  key <> "" ->
  grains st !! grain = Some (PInt z) ->
  generate_ticket icinga2 name (Some "grain") (Some grain) (Some key) false
    salt st
  = (Raise TypeError, extend st [EvGrainsLs; EvGrainsGet grain]).
Proof.
  intros Hgrain Hkey Hint. unfold generate_ticket.
  cbn [is_grain String.eqb Ascii.eqb Bool.eqb].
  rewrite (non_empty_truthy grain Hgrain), (non_empty_truthy key Hkey).
  cbn [andb negb arg default fmt]. unfold_monad. cbn.
  rewrite in_dom_lookup, Hint. cbn. rewrite Hint. cbn.
  unfold extend. now rewrite <- app_assoc.
Qed.

Lemma sub_key_on_int_grain_raises_witness :
  generate_ticket ok_ticket "node1" (Some "grain") (Some "num_cpus")
    (Some "ticket") false None (mkState true ∅ {["num_cpus" := PInt 4]} [])
  = (Raise TypeError,
     extend (mkState true ∅ {["num_cpus" := PInt 4]} [])
       [EvGrainsLs; EvGrainsGet "num_cpus"]).
Proof.
  apply (sub_key_on_int_grain_raises ok_ticket "node1" "num_cpus" "ticket"
           None 4 (mkState true ∅ {["num_cpus" := PInt 4]} [])).
  - discriminate.
  - discriminate.
  - vm_compute. reflexivity.
Defined.

(** X15: The grain holds a string or an integer and a sub-key is given,
    overwrite forced, real run: the executor is called, then the
    assignment into the grain's value raises [TypeError]; the grains are
    as before (the ticket is stored nowhere) and the files are as the
    executor left them. *)
Lemma sub_key_on_scalar_grain_loses_ticket (icinga2 : executor)
    (name grain key : string) (salt : option string) (v : pyval)
    (st : State) :
  grain <> "" ->
  key <> "" ->
  grains st !! grain = Some v ->
  (forall d : gmap string pyval, v <> PDict d) ->
  opts_test st = false ->
  exists st' : State,
    generate_ticket icinga2 name (Some "grain") (Some grain) (Some key) true
      salt st = (Raise TypeError, st')
    /\ grains st' = grains st
    /\ files st' = snd (icinga2 (Icinga2GenerateTicket name salt) (files st))
    /\ exists evs : list event,
        log st' = (log st ++ evs)%list
        /\ executor_calls evs = [Icinga2GenerateTicket name salt].
Proof.
  intros Hgrain Hkey Hv Hscalar Htest. unfold generate_ticket.
  cbn [is_grain String.eqb Ascii.eqb Bool.eqb].
  rewrite (non_empty_truthy grain Hgrain), (non_empty_truthy key Hkey).
  cbn [andb negb arg default fmt]. unfold_monad. cbn.
  rewrite in_dom_lookup, Hv. cbn. rewrite Htest. cbn.
  destruct (icinga2 (Icinga2GenerateTicket name salt) (files st))
    as [res fs]. cbn.
  rewrite in_dom_lookup, Hv. cbn. rewrite Hv. cbn.
  destruct v as [s|z|d]; [| |now contradiction (Hscalar d)]; cbn.
  all: eexists; split; [reflexivity|]; cbn; repeat split.
  all: close_log; reflexivity.
Qed.

Lemma sub_key_on_scalar_grain_loses_ticket_witness :
  exists st' : State,
    generate_ticket ok_ticket "node1" (Some "grain") (Some "roles")
      (Some "web") true None
      (mkState false ∅ {["roles" := PStr "webserver"]} [])
    = (Raise TypeError, st')
    /\ grains st'
       = grains (mkState false ∅ {["roles" := PStr "webserver"]} [])
    /\ files st'
       = snd (ok_ticket (Icinga2GenerateTicket "node1" None)
                (files (mkState false ∅ {["roles" := PStr "webserver"]} [])))
    /\ exists evs : list event,
        log st'
        = (log (mkState false ∅ {["roles" := PStr "webserver"]} [])
             ++ evs)%list
        /\ executor_calls evs = [Icinga2GenerateTicket "node1" None].
Proof.
  apply (sub_key_on_scalar_grain_loses_ticket ok_ticket "node1" "roles" "web"
           None (PStr "webserver")
           (mkState false ∅ {["roles" := PStr "webserver"]} [])).
  - discriminate.
  - discriminate.
  - vm_compute. reflexivity.
  - discriminate.
  - reflexivity.
Defined.

(** X16: The grain holds a string in which the sub-key occurs, overwrite off:
    the check takes the occurrence for the sub-key being set and returns
    "No execution needed", in a dry run and in a real run alike; nothing is
    executed or stored. *)
Lemma sub_key_found_inside_string_grain (icinga2 : executor)
    (name grain key : string) (salt : option string) (pre post : string)
    (st : State) :
  grain <> "" ->
  key <> "" ->
  grains st !! grain = Some (PStr (pre ++ key ++ post)) ->
  generate_ticket icinga2 name (Some "grain") (Some grain) (Some key) false
    salt st
  = (Ok (mkRet name ∅ (Some true)
           ("No execution needed. Grain " ++ grain ++ ":" ++ key
              ++ " already set")),
     extend st [EvGrainsLs; EvGrainsGet grain]).
Proof.
  intros Hgrain Hkey Hstr. unfold generate_ticket.
  cbn [is_grain String.eqb Ascii.eqb Bool.eqb].
  rewrite (non_empty_truthy grain Hgrain), (non_empty_truthy key Hkey).
  cbn [andb negb arg default fmt]. unfold_monad. cbn.
  rewrite in_dom_lookup, Hstr. cbn. rewrite Hstr. cbn.
  rewrite (str_contains_occurrence pre key post Hkey). cbn.
  unfold extend. now rewrite <- app_assoc.
Qed.

Lemma sub_key_found_inside_string_grain_witness :
  generate_ticket ok_ticket "node1" (Some "grain") (Some "roles") (Some "web")
    false None (mkState false ∅ {["roles" := PStr ("" ++ "web" ++ "server")]} [])
  = (Ok (mkRet "node1" ∅ (Some true)
           ("No execution needed. Grain " ++ "roles" ++ ":" ++ "web"
              ++ " already set")),
     extend (mkState false ∅ {["roles" := PStr ("" ++ "web" ++ "server")]} [])
       [EvGrainsLs; EvGrainsGet "roles"]).
Proof.
  apply (sub_key_found_inside_string_grain ok_ticket "node1" "roles" "web"
           None "" "server"
           (mkState false ∅ {["roles" := PStr ("" ++ "web" ++ "server")]} [])).
  - discriminate.
  - discriminate.
  - vm_compute. reflexivity.
Defined.

(** ** [generate_ticket] applied twice *)

(** The log is write-only: what a run returns does not depend on the calls
    logged before it. *)
Lemma run_ignores_log (certs_path : string) (icinga2 : executor)
    (a : action) (st : State) (evs : list event) :
  fst (apply_state certs_path icinga2 a (extend st evs))
  = fst (apply_state certs_path icinga2 a st).
Proof.
  unfold extend.
  destruct a as [name output grain key overwrite salt | name | name parent
                | name parent ticket port | name parent ticket].
  all: run_cases icinga2.
  all: reflexivity.
Qed.

(** A run that reports no change has only probed. *)
Lemma no_change_no_mutation (icinga2 : executor)
    (name : string) (output grain key : option string) (overwrite : bool)
    (salt : option string) (st : State) (r : Ret) :
  fst (generate_ticket icinga2 name output grain key overwrite salt
         st)
  = Ok r ->
  changes r = ∅ ->
  exists evs : list event,
    snd (generate_ticket icinga2 name output grain key overwrite
           salt st)
    = extend st evs.
Proof.
  run_cases icinga2.
  all: first [discriminate | intros [= <-]; cbn; intros Hch].
  all: try (exfalso; revert Hch; apply insert_non_empty).
  all: first
         [ exists []; rewrite extend_nil; reflexivity
         | eexists; unfold extend; f_equal;
           first [ symmetry; assumption
                 | rewrite <- ?app_assoc; reflexivity ] ].
Qed.

(** X17: [generate_ticket] asked to store its ticket, overwrite off, applied
    twice in a row: whenever the first application returns a record, the
    second returns a record without changes, whatever the executor does and
    whatever the dry-run flag is. *)
Lemma generate_ticket_twice (icinga2 : executor) (name : string)
    (output grain key salt : option string) (st : State) (r1 : Ret) :
  truthy output = true ->
  fst (generate_ticket icinga2 name output grain key false salt st)
  = Ok r1 ->
  exists r2 : Ret,
    fst (generate_ticket icinga2 name output grain key false salt
           (snd (generate_ticket icinga2 name output grain key
                   false salt st)))
    = Ok r2
    /\ changes r2 = ∅.
Proof.
  intros Hout Hrun.
  destruct (decide (changes r1 = ∅)) as [Hch|Hch].
  - destruct (no_change_no_mutation icinga2 _ _ _ _ _ _ _ _ Hrun Hch)
      as [evs Hst].
    rewrite Hst.
    pose proof (run_ignores_log "" icinga2
                  (GenerateTicket name output grain key false salt) st evs)
      as Hlog.
    cbn [apply_state] in Hlog. rewrite Hlog, Hrun. now exists r1.
  - pose proof (generate_ticket_establishes "" icinga2 name output grain key
                  false salt st r1 Hout Hrun Hch) as Hsat.
    destruct (apply_state_already "" icinga2 _ _ Hsat eq_refl)
      as (r2 & evs & Hrun2 & _ & Hch2 & _).
    cbn [apply_state] in Hrun2. rewrite Hrun2. now exists r2.
Qed.

Lemma generate_ticket_twice_witness :
  exists r2 : Ret,
    fst (generate_ticket ok_ticket "node1" (Some "grain")
           (Some "icinga2") (Some "ticket") false None
           (snd (generate_ticket ok_ticket "node1" (Some "grain")
                   (Some "icinga2") (Some "ticket") false None
                   (fresh false))))
    = Ok r2
    /\ changes r2 = ∅.
Proof.
  apply (generate_ticket_twice ok_ticket "node1" (Some "grain")
           (Some "icinga2") (Some "ticket") None (fresh false)
           (mkRet "node1"
              {["ticket" := "Executed. Output into grain: icinga2:ticket"]}
              (Some true) "4f75d2ecd253575fe9180938ebff7cbca262f96e")).
  - reflexivity.
  - vm_compute. reflexivity.
Defined.

(** ** The files a run leaves *)

(** X19: No state function writes a file itself: after any run the files are as
    before or as the executor left them, and the log holds no file
    write. *)
Lemma files_change_only_through_executor (certs_path : string)
    (icinga2 : executor) (a : action) (st : State) :
  (files (snd (apply_state certs_path icinga2 a st)) = files st
   \/ files (snd (apply_state certs_path icinga2 a st))
      = snd (icinga2 (command_of a) (files st)))
  /\ exists evs : list event,
      log (snd (apply_state certs_path icinga2 a st))
      = (log st ++ evs)%list
      /\ existsb is_file_write evs = false.
Proof.
  destruct a as [name output grain key overwrite salt | name | name parent
                | name parent ticket port | name parent ticket].
  all: run_cases icinga2.
  all: split; [auto|]; close_log; reflexivity.
Qed.

(** X20: With a file as output no record ever reports a change: the record that
    comes back is that of the check or of the dry run. *)
Lemma file_output_never_reports_a_change (certs_path : string)
    (icinga2 : executor) (a : action) (st : State) (r : Ret) :
  to_file a = true ->
  fst (apply_state certs_path icinga2 a st) = Ok r ->
  changes r = ∅
  /\ (opts_test st = true \/ short_circuits certs_path a st = Some true).
Proof.
  unfold short_circuits.
  destruct a as [name output grain key overwrite salt | name | name parent
                | name parent ticket port | name parent ticket];
    try discriminate.
  cbn [to_file satisfied overwrite_requested]; unfold file_exists.
  run_cases icinga2.
  all: intros Hfile; try discriminate Hfile.
  all: first [discriminate | intros [= <-]; cbn; auto].
Qed.

Lemma file_output_never_reports_a_change_witness :
  changes (mkRet "node1" ∅ (Some true)
             "No execution needed. File /tmp/query_id.txt already set") = ∅
  /\ (opts_test (mkState false {["/tmp/query_id.txt" := "old"]} ∅ []) = true
      \/ short_circuits pki
           (GenerateTicket "node1" (Some "/tmp/query_id.txt") None None false
              None)
           (mkState false {["/tmp/query_id.txt" := "old"]} ∅ [])
         = Some true).
Proof.
  apply (file_output_never_reports_a_change pki boom
           (GenerateTicket "node1" (Some "/tmp/query_id.txt") None None false
              None)
           (mkState false {["/tmp/query_id.txt" := "old"]} ∅ [])).
  - reflexivity.
  - vm_compute. reflexivity.
Defined.

(** ** The failure branch of [request_cert] and [node_setup] *)

(** X21: [request_cert] and [node_setup] run for real past their check with an
    executor that answers a non-zero return code: the record has result
    [False], no changes, and a comment that starts with "FAILED. " and ends
    in the executor's output. *)
Lemma executor_failure_is_reported (certs_path : string)
    (icinga2 : executor) (a : action) (st : State) :
  match a with
  | RequestCert _ _ _ _ | NodeSetup _ _ _ => True
  | _ => False
  end ->
  opts_test st = false ->
  satisfied certs_path a st = Some false ->
  retcode (fst (icinga2 (command_of a) (files st))) <> 0 ->
  exists msg : string,
    fst (apply_state certs_path icinga2 a st)
    = Ok (mkRet (name_of a) ∅ (Some false)
                  (msg ++ stdout (fst (icinga2 (command_of a) (files st)))))
    /\ String.prefix "FAILED. " msg = true.
Proof.
  destruct a as [name output grain key overwrite salt | name | name parent
                | name parent ticket port | name parent ticket];
    try contradiction; intros _;
    cbn [satisfied]; unfold file_exists.
  all: run_cases icinga2.
  all: intros Htest Hsat Hret; try discriminate; try congruence.
  all: try match goal with
           | H : (retcode _ =? 0) = true |- _ =>
               apply Z.eqb_eq in H; contradiction
           end.
  all: eexists; split; [reflexivity|reflexivity].
Qed.

Lemma executor_failure_is_reported_witness :
  exists msg : string,
    fst (apply_state pki boom (NodeSetup "node1" "master" "t1ck3t")
           (fresh false))
    = Ok (mkRet (name_of (NodeSetup "node1" "master" "t1ck3t")) ∅
                  (Some false)
                  (msg ++ stdout (fst (boom (command_of (NodeSetup "node1"
                                                          "master" "t1ck3t"))
                                         (files (fresh false))))))
    /\ String.prefix "FAILED. " msg = true.
Proof.
  apply (executor_failure_is_reported pki boom
           (NodeSetup "node1" "master" "t1ck3t") (fresh false)).
  - exact I.
  - reflexivity.
  - reflexivity.
  - vm_compute. discriminate.
Defined.

(** ** What the check decides *)

(** X23: Whenever the check of an action answers that the end state is there,
    in a dry run or a real one, the run is over: the untouched record comes
    back with result [True], no changes and a comment that starts
    "No execution needed.", and only probes have been made. *)
Lemma check_true_returns_early (certs_path : string) (icinga2 : executor)
    (a : action) (st : State) :
  check_returns certs_path a st = Ok true ->
  exists (msg : string) (evs : list event),
    apply_state certs_path icinga2 a st
    = (Ok (mkRet (name_of a) ∅ (Some true) msg), extend st evs)
    /\ String.prefix "No execution needed." msg = true
    /\ read_only evs = true.
Proof.
  destruct a as [name output grain key overwrite salt | name | name parent
                | name parent ticket port | name parent ticket];
    cbn [check_returns]; unfold file_exists.
  all: run_cases icinga2.
  all: intros Hsc; try discriminate; try congruence.
  all: eexists _, _; split;
    [ unfold extend; do 2 f_equal; rewrite <- ?app_assoc; reflexivity
    | split; reflexivity ].
Qed.

Lemma check_true_returns_early_witness :
  exists (msg : string) (evs : list event),
    apply_state pki boom (GenerateCert "node1")
      (mkState false
         {["/etc/icinga2/pki/node1.crt" := "CERT";
           "/etc/icinga2/pki/node1.key" := "KEY"]} ∅ [])
    = (Ok (mkRet (name_of (GenerateCert "node1")) ∅ (Some true) msg),
       extend
         (mkState false
            {["/etc/icinga2/pki/node1.crt" := "CERT";
              "/etc/icinga2/pki/node1.key" := "KEY"]} ∅ [])
         evs)
    /\ String.prefix "No execution needed." msg = true
    /\ read_only evs = true.
Proof.
  apply (check_true_returns_early pki boom (GenerateCert "node1")
           (mkState false
              {["/etc/icinga2/pki/node1.crt" := "CERT";
                "/etc/icinga2/pki/node1.key" := "KEY"]} ∅ [])).
  vm_compute. reflexivity.
Defined.

(** ** The loader check *)

(** X22: [__virtual__] looks at one key only: the module loads exactly when
    ["icinga2.generate_ticket"] is in [__salt__], whether or not the other
    four execution functions the state functions call are there; otherwise
    it answers [False] with the reason. *)
Lemma virtual_checks_generate_ticket_only (salt : gset string) :
  (__virtual__ salt = Loaded <-> "icinga2.generate_ticket" ∈ salt)
  /\ (__virtual__ salt <> Loaded ->
      __virtual__ salt = NotLoaded "icinga2 module could not be loaded")
  /\ __virtual__
       (salt ∖ {["icinga2.generate_cert"; "icinga2.save_cert";
                 "icinga2.request_cert"; "icinga2.node_setup"]})
     = __virtual__ salt.
Proof.
  unfold __virtual__. repeat split.
  - destruct (bool_decide_reflect ("icinga2.generate_ticket" ∈ salt));
      [trivial|discriminate].
  - intros Hin. now rewrite bool_decide_eq_true_2.
  - destruct (bool_decide ("icinga2.generate_ticket" ∈ salt));
      [contradiction|reflexivity].
  - apply (f_equal (fun b : bool =>
                      if b then Loaded
                      else NotLoaded "icinga2 module could not be loaded")).
    apply bool_decide_ext. rewrite elem_of_difference.
    split; [now intros [Hin _]|]. intros Hin. split; [exact Hin|].
    rewrite !elem_of_union, !elem_of_singleton.
    intros Hother. repeat destruct Hother as [Hother|Hother];
      discriminate Hother.
Qed.
